(** * si_prefix: formatting and parsing numbers with SI prefixes

    A shallow embedding of the two Python modules of the repository,
    [si_prefix.py] (the older, flat module) and [si_prefix/__init__.py]
    (the package), together with the part of the Python runtime they call:
    [str] methods, [str.format], [float], [round], fixed-point float
    formatting, [int ** int], and the two regular expressions of
    [si_parse].

    Floats are IEEE binary64 values (Rocq's primitive floats).  The two
    C library functions reached through [math.log10] and [**], and the
    Unicode table of decimal digits, are not part of the repository nor of
    the language definition: they are the fields of a parameter,
    [platform], of every function that reaches them. *)

From Stdlib Require Import ZArith NArith List String Ascii Bool Lia Floats.
Import ListNotations.

Set Warnings "-inexact-float".
Open Scope Z_scope.

(** ** Outcomes of a Python call *)

Inductive exn : Set :=
| ValueError | KeyError | IndexError | TypeError | OverflowError.

(** [Unmodelled] marks the corners of a builtin that this development does
    not describe (for instance attribute access inside a replacement
    field); no theorem below draws a conclusion from it. *)
Inductive outcome (A : Type) : Type :=
| Ok (a : A)
| Raise (e : exn)
| Unmodelled.

Arguments Ok {A} a.
Arguments Raise {A} e.
Arguments Unmodelled {A}.

Definition bind {A B} (c : outcome A) (k : A -> outcome B) : outcome B :=
  match c with
  | Ok a => k a
  | Raise e => Raise e
  | Unmodelled => Unmodelled
  end.

Declare Scope py_scope.
Delimit Scope py_scope with py.
Notation "x <- c ;; k" := (bind c (fun x => k))
  (at level 61, c at next level, right associativity) : py_scope.
Notation "' p <- c ;; k" := (bind c (fun x => let 'p := x in k))
  (at level 61, p pattern, c at next level, right associativity) : py_scope.
Open Scope py_scope.

(** [try: c except ValueError: h] *)
Definition except_ValueError {A} (c : outcome A) (h : outcome A) : outcome A :=
  match c with
  | Raise ValueError => h
  | other => other
  end.

(** ** Strings: sequences of Unicode code points *)

Definition str := list N.

Definition chr (a : ascii) : N := N_of_ascii a.
Arguments chr a%_char.

Definition lit (s : string) : str := map N_of_ascii (list_ascii_of_string s).
Arguments lit s%_string.

Fixpoint str_eqb (a b : str) : bool :=
  match a, b with
  | [], [] => true
  | x :: a', y :: b' => (x =? y)%N && str_eqb a' b'
  | _, _ => false
  end.

Fixpoint startswith (p s : str) : bool :=
  match p, s with
  | [], _ => true
  | a :: p', b :: s' => (a =? b)%N && startswith p' s'
  | _ :: _, [] => false
  end.

(** [str.isspace] on one code point (the Unicode white-space property as
    CPython's [Py_UNICODE_ISSPACE] has it). *)
Definition is_space (c : N) : bool :=
  ((9 <=? c) && (c <=? 13) || (28 <=? c) && (c <=? 32) || (c =? 133)
   || (c =? 160) || (c =? 5760) || (8192 <=? c) && (c <=? 8202)
   || (c =? 8232) || (c =? 8233) || (c =? 8239) || (c =? 8287)
   || (c =? 12288))%N.

Fixpoint lstrip (s : str) : str :=
  match s with
  | c :: s' => if is_space c then lstrip s' else s
  | [] => []
  end.

Definition rstrip (s : str) : str := rev (lstrip (rev s)).

(** [s.strip()] *)
Definition strip (s : str) : str := rstrip (lstrip s).

(** [s.replace(old, new)] for a non-empty [old]: leftmost occurrences, not
    overlapping; [skip] counts the characters of a match still to drop. *)
Fixpoint replace_from (old new : str) (skip : nat) (s : str) : str :=
  match s with
  | [] => []
  | c :: s' =>
      match skip with
      | S n => replace_from old new n s'
      | O =>
          if startswith old s
          then new ++ replace_from old new (List.length old - 1) s'
          else c :: replace_from old new 0 s'
      end
  end.

(** [s.replace(old, new)]; an empty [old] matches before every character
    and at the end of the string. *)
Definition replace (old new s : str) : str :=
  match old with
  | [] => new ++ flat_map (fun c => c :: new) s
  | _ :: _ => replace_from old new 0 s
  end.

(** [sep.join(parts)] *)
Fixpoint join (sep : str) (parts : list str) : str :=
  match parts with
  | [] => []
  | [x] => x
  | x :: rest => x ++ sep ++ join sep rest
  end.

(** [s.index(sub)]: position of the first occurrence, [ValueError] if there
    is none. *)
Fixpoint find_from (sub s : str) (i : Z) : option Z :=
  if startswith sub s then Some i
  else match s with
       | [] => None
       | _ :: s' => find_from sub s' (i + 1)
       end.

Definition index (s sub : str) : outcome Z :=
  match find_from sub s 0 with
  | Some i => Ok i
  | None => Raise ValueError
  end.

(** [str(n)] for an [int] *)
Fixpoint digits_pos (fuel : nat) (n : Z) (acc : str) : str :=
  match fuel with
  | O => acc
  | S fuel' =>
      let acc' := (48 + Z.to_N (n mod 10))%N :: acc in
      if n <? 10 then acc' else digits_pos fuel' (n / 10) acc'
  end.

Definition str_of_nonneg (n : Z) : str :=
  digits_pos (S (Z.to_nat (Z.log2 n))) n [].

Definition str_of_int (n : Z) : str :=
  if n <? 0 then chr "-" :: str_of_nonneg (- n) else str_of_nonneg n.

(** ** Floats: IEEE binary64 *)

Definition round_half_even (n d : Z) : Z :=
  let q := n / d in
  match (2 * (n mod d) ?= d) with
  | Lt => q
  | Gt => q + 1
  | Eq => if Z.even q then q else q + 1
  end.

(** The binary64 value nearest to [(-1)^s * n / d], ties to even; the
    conversion done by [strtod] and by [int -> float]. *)
Definition nearest (s : bool) (n : Z) (d : positive) : float :=
  match n with
  | Zpos p => SF2Prim (SFdiv prec emax (S754_finite s p 0) (S754_finite false d 0))
  | _ => SF2Prim (S754_zero s)
  end.

(** [m * 2^e * 10^nd], rounded half-even to an integer: what [dtoa] in
    mode 3 yields for [nd] digits after the point. *)
Definition decimal_shift (m : positive) (e nd : Z) : Z :=
  round_half_even (Zpos m * 2 ^ Z.max e 0 * 10 ^ Z.max nd 0)
                  (2 ^ Z.max (- e) 0 * 10 ^ Z.max (- nd) 0).

(** [int(x)]: truncation towards zero. *)
Definition py_int (x : float) : outcome Z :=
  match Prim2SF x with
  | S754_zero _ => Ok 0
  | S754_finite s m e =>
      let a := if 0 <=? e then Zpos m * 2 ^ e else Zpos m / 2 ^ (- e) in
      Ok (if s then - a else a)
  | S754_infinity _ => Raise OverflowError
  | S754_nan => Raise ValueError
  end.

(** [float(n)] for an [int], as in an arithmetic operation mixing the two. *)
Definition float_of_int (n : Z) : outcome float :=
  let r := nearest (n <? 0) (Z.abs n) 1 in
  if is_infinity r then Raise OverflowError else Ok r.

(** [round(x, ndigits)] on a float: correctly rounded, half to even on the
    exact binary value (CPython's [double_round]). *)
Definition py_round (x : float) (ndigits : Z) : outcome float :=
  match Prim2SF x with
  | S754_finite s m e =>
      if 323 <? ndigits then Ok x
      else if ndigits <? -308 then Ok (0 * x)%float
      else
        let n := decimal_shift m e ndigits in
        let r := nearest s (n * 10 ^ Z.max (- ndigits) 0)
                         (Z.to_pos (10 ^ Z.max ndigits 0)) in
        if is_infinity r then Raise OverflowError else Ok r
  | _ => Ok x
  end.

Fixpoint fixed_digits (k : nat) (n : Z) (acc : str) : str :=
  match k with
  | O => acc
  | S k' => fixed_digits k' (n / 10) ((48 + Z.to_N (n mod 10))%N :: acc)
  end.

Definition fixed_point (s : bool) (n p : Z) : str :=
  (if s then [chr "-"] else [])
  ++ str_of_nonneg (n / 10 ^ p)
  ++ (if p =? 0 then [] else chr "." :: fixed_digits (Z.to_nat p) (n mod 10 ^ p) []).

(** The text of [x] under the presentation [.{p}f], shared by
    [f"{x:.{p}f}"] and ["%.{p}f" % x]; both reject a negative precision
    and one above C's [INT_MAX] with [ValueError]. *)
Definition format_f (x : float) (p : Z) : outcome str :=
  if (p <? 0) || (2147483647 <? p) then Raise ValueError
  else
    Ok match Prim2SF x with
       | S754_nan => lit "nan"
       | S754_infinity s => if s then lit "-inf" else lit "inf"
       | S754_zero s => fixed_point s 0 p
       | S754_finite s m e => fixed_point s (decimal_shift m e p) p
       end.

(** Python numbers that [10 ** n] can be. *)
Inductive num : Set :=
| PyInt (z : Z)
| PyFloat (f : float).

(** [x * n] with a float on the left. *)
Definition float_mul (x : float) (n : num) : outcome float :=
  match n with
  | PyInt z => f <- float_of_int z ;; Ok (x * f)%float
  | PyFloat f => Ok (x * f)%float
  end.

(** ** [str.format] with keyword arguments that are strings *)

Definition is_digit (c : N) : bool := ((48 <=? c) && (c <=? 57))%N.

Fixpoint span (p : N -> bool) (s : str) : str * str :=
  match s with
  | c :: s' => if p c then let '(a, b) := span p s' in (c :: a, b) else ([], s)
  | [] => ([], [])
  end.

Definition int_of_digits (ds : str) : Z :=
  fold_left (fun acc c => 10 * acc + (Z.of_N c - 48)) ds 0.

Definition PY_SSIZE_T_MAX : Z := 2 ^ 63 - 1.

Definition is_align (c : N) : bool :=
  ((c =? chr "<") || (c =? chr ">") || (c =? chr "=") || (c =? chr "^"))%N.

Definition eat (c : N) (s : str) : bool * str :=
  match s with
  | d :: s' => if (c =? d)%N then (true, s') else (false, s)
  | [] => (false, s)
  end.

(** [format(v, spec)] for a string [v]: the standard format specification
    [[[fill]align][sign][z][#][0][width][grouping][.precision][type]]
    as CPython parses and applies it to a [str].  CPython reads the width
    and the precision with the Unicode table of decimal digits, so a
    specification with a character above ASCII after the fill is not
    described. *)
Definition format_string (v spec : str) : outcome str :=
  match spec with
  | [] => Ok v
  | _ =>
    let '(fill, align, s) :=
      match spec with
      | f :: a :: r => if is_align a then (Some f, Some a, r)
                       else if is_align f then (None, Some f, a :: r)
                       else (None, None, spec)
      | [a] => if is_align a then (None, Some a, []) else (None, None, spec)
      | [] => (None, None, spec)
      end in
    if existsb (fun c => 128 <=? c)%N s then Unmodelled else
    let '(sign, s) :=
      match s with
      | c :: r => if ((c =? chr "+") || (c =? chr "-") || (c =? chr " "))%N
                  then (true, r) else (false, s)
      | [] => (false, s)
      end in
    let '(no_neg_0, s) := eat (chr "z") s in
    let '(alternate, s) := eat (chr "#") s in
    let '(fill, s) :=
      match fill with
      | Some f => (f, s)
      | None => let '(zero, r) := eat (chr "0") s in
                (if zero then chr "0" else chr " ", r)
      end in
    let '(w, s) := span is_digit s in
    if PY_SSIZE_T_MAX <? int_of_digits w then Raise ValueError else
    let '(comma, s) := eat (chr ",") s in
    let '(underscore, s) := eat (chr "_") s in
    if comma && underscore then Raise ValueError else
    if underscore && fst (eat (chr ",") s) then Raise ValueError else
    let '(dot, s) := eat (chr ".") s in
    let '(p, s) := if dot then span is_digit s else ([], s) in
    if dot && match p with [] => true | _ => false end then Raise ValueError else
    if PY_SSIZE_T_MAX <? int_of_digits p then Raise ValueError else
    match s with
    | _ :: _ :: _ => Raise ValueError
    | _ =>
      let type := match s with [c] => c | _ => chr "s" end in
      if comma || underscore then Raise ValueError
      else if negb (type =? chr "s")%N then Raise ValueError
      else if sign || no_neg_0 || alternate then Raise ValueError
      else if match align with Some a => (a =? chr "=")%N | None => false end
      then Raise ValueError
      else
        let v := if dot then firstn (Z.to_nat (int_of_digits p)) v else v in
        let total := (Z.to_nat (int_of_digits w) - List.length v)%nat in
        let lpad :=
          match align with
          | Some a => if (a =? chr ">")%N then total
                      else if (a =? chr "^")%N then Nat.div total 2 else O
          | None => O
          end%nat in
        Ok (repeat fill lpad ++ v ++ repeat fill (total - lpad)%nat)
    end
  end.

Fixpoint lookup (kwargs : list (str * str)) (name : str) : option str :=
  match kwargs with
  | (k, v) :: rest => if str_eqb k name then Some v else lookup rest name
  | [] => None
  end.

(** The object a replacement field names.  There are no positional
    arguments, so an empty or numeric name raises [IndexError]; an unknown
    keyword raises [KeyError].  CPython decides whether a name is numeric
    with the Unicode table of decimal digits, so a name made only of
    digits and characters above ASCII, with one of the latter, is not
    described. *)
Definition get_field (kwargs : list (str * str)) (name : str) : outcome str :=
  if forallb (fun c => is_digit c || (128 <=? c)%N) name
     && existsb (fun c => 128 <=? c)%N name
  then Unmodelled
  else if forallb is_digit name
  then if PY_SSIZE_T_MAX <? int_of_digits name then Raise ValueError
       else Raise IndexError
  else match lookup kwargs name with
       | Some v => Ok v
       | None => Raise KeyError
       end.

Inductive markup : Set :=
| Text
| FieldName (acc : str)
| FormatSpec (name acc : str).

(** [template.format(name=value, ...)], scanning the template left to right.
    Literal text, doubled braces and fields [{name}] and [{name:spec}] are
    described; conversions ([!r]), attribute and index access and fields
    nested in a specification are not. *)
Fixpoint format_from (kwargs : list (str * str)) (st : markup) (t : str)
  : outcome str :=
  match st, t with
  | Text, [] => Ok []
  | Text, c :: t' =>
      if (c =? chr "{")%N then
        match t' with
        | d :: t'' =>
            if (d =? chr "{")%N
            then r <- format_from kwargs Text t'' ;; Ok (c :: r)
            else format_from kwargs (FieldName []) t'
        | [] => Raise ValueError
        end
      else if (c =? chr "}")%N then
        match t' with
        | d :: t'' =>
            if (d =? chr "}")%N
            then r <- format_from kwargs Text t'' ;; Ok (c :: r)
            else Raise ValueError
        | [] => Raise ValueError
        end
      else r <- format_from kwargs Text t' ;; Ok (c :: r)
  | FieldName acc, [] => Raise ValueError
  | FieldName acc, c :: t' =>
      if (c =? chr "}")%N then
        v <- get_field kwargs (rev acc) ;;
        r <- format_from kwargs Text t' ;; Ok (v ++ r)
      else if (c =? chr ":")%N then format_from kwargs (FormatSpec (rev acc) []) t'
      else if ((c =? chr "!") || (c =? chr "[") || (c =? chr ".")
               || (c =? chr "{"))%N
      then Unmodelled
      else format_from kwargs (FieldName (c :: acc)) t'
  | FormatSpec name acc, [] => Raise ValueError
  | FormatSpec name acc, c :: t' =>
      if (c =? chr "}")%N then
        v <- get_field kwargs name ;;
        f <- format_string v (rev acc) ;;
        r <- format_from kwargs Text t' ;; Ok (f ++ r)
      else if (c =? chr "{")%N then Unmodelled
      else format_from kwargs (FormatSpec name (c :: acc)) t'
  end.

Definition str_format (template : str) (kwargs : list (str * str)) : outcome str :=
  format_from kwargs Text template.

(** ** The platform

    What the modules reach outside Python's own definition: the C
    library's [log10] and [pow] (through [math.log10] and a negative
    [int] power), and the Unicode table of decimal digits above ASCII
    (through [float] and the pattern [\d]). *)
Record platform : Type := {
  c_log10 : float -> float;
  c_pow : float -> float -> float;
  to_decimal : N -> option N
}.

(** ** [float(s)] on a string *)

Definition is_c_space (c : N) : bool :=
  ((c =? 32) || (9 <=? c) && (c <=? 13))%N.

Fixpoint transform_decimal_and_space (pf : platform) (s : str) : str :=
  match s with
  | [] => []
  | c :: s' =>
      if (c <? 127)%N then c :: transform_decimal_and_space pf s'
      else if is_space c then 32%N :: transform_decimal_and_space pf s'
      else match to_decimal pf c with
           | Some d => (48 + d)%N :: transform_decimal_and_space pf s'
           | None => [chr "?"]
           end
  end.

Definition to_ascii (pf : platform) (s : str) : str :=
  if forallb (fun c => c <? 128)%N s then s
  else transform_decimal_and_space pf s.

(** Underscores are dropped when each stands between two digits. *)
Fixpoint drop_underscores (prev : N) (s : str) : option str :=
  match s with
  | [] => if (prev =? chr "_")%N then None else Some []
  | c :: s' =>
      if (c =? chr "_")%N then
        if is_digit prev then drop_underscores c s' else None
      else if (prev =? chr "_")%N && negb (is_digit c) then None
      else option_map (cons c) (drop_underscores c s')
  end.

Fixpoint lstrip_c (s : str) : str :=
  match s with
  | c :: s' => if is_c_space c then lstrip_c s' else s
  | [] => []
  end.

Definition lower (c : N) : N :=
  if ((65 <=? c) && (c <=? 90))%N then (c + 32)%N else c.

(** The decimal grammar of [strtod] as CPython restricts it, on the whole
    string: [[sign] digits [. [digits]] [(e|E) [sign] digits]] with a
    digit before or after the point, or a signed [inf], [infinity] or
    [nan]. The value is the nearest binary64, an overflow is [inf]. *)
Definition strtod (s : str) : option float :=
  let '(neg, r) :=
    match s with
    | c :: r => if (c =? chr "-")%N then (true, r)
                else if (c =? chr "+")%N then (false, r) else (false, s)
    | [] => (false, s)
    end in
  let word := map lower r in
  if str_eqb word (lit "inf") || str_eqb word (lit "infinity")
  then Some (if neg then neg_infinity else infinity)
  else if str_eqb word (lit "nan") then Some nan
  else
    let '(ip, r1) := span is_digit r in
    let '(fp, r2) :=
      match r1 with
      | c :: t => if (c =? chr ".")%N then span is_digit t else ([], r1)
      | [] => ([], r1)
      end in
    match ip ++ fp with
    | [] => None
    | ds =>
        let value k :=
          let e := k - Z.of_nat (List.length fp) in
          Some (nearest neg (int_of_digits ds * 10 ^ Z.max e 0)
                        (Z.to_pos (10 ^ Z.max (- e) 0))) in
        match r2 with
        | [] => value 0
        | c :: t =>
            if ((c =? chr "e") || (c =? chr "E"))%N then
              let '(eneg, t') :=
                match t with
                | d :: u => if (d =? chr "-")%N then (true, u)
                            else if (d =? chr "+")%N then (false, u)
                            else (false, t)
                | [] => (false, t)
                end in
              match span is_digit t' with
              | ((_ :: _) as ed, []) =>
                  value (if eneg then - int_of_digits ed else int_of_digits ed)
              | _ => None
              end
            else None
        end
    end.

(** [float(s)] *)
Definition float_of_str (pf : platform) (s : str) : outcome float :=
  match drop_underscores 0%N (to_ascii pf s) with
  | None => Raise ValueError
  | Some a =>
      match strtod (rev (lstrip_c (rev (lstrip_c a)))) with
      | Some x => Ok x
      | None => Raise ValueError
      end
  end.

(** ** A reference platform

    A platform to run the definitions on: [log10] interpolates linearly
    between consecutive powers of ten (exact at the powers, monotone),
    [pow] is the correctly rounded power for an integral exponent, and no
    character above ASCII is a decimal digit. *)

Fixpoint count_up (fuel : nat) (n d k : Z) : Z :=
  match fuel with
  | O => k
  | S fuel' => if n <? d * 10 then k else count_up fuel' n (d * 10) (k + 1)
  end.

Fixpoint count_down (fuel : nat) (n d k : Z) : Z :=
  match fuel with
  | O => k
  | S fuel' => if d <=? n then k else count_down fuel' (n * 10) d (k - 1)
  end.

(** [floor (log10 (n / d))] for positive [n] and [d] *)
Definition floor_log10 (n d : Z) : Z :=
  if d <=? n then count_up 400 n d 0 else count_down 400 n d 0.

Definition ref_log10 (x : float) : float :=
  match Prim2SF x with
  | S754_finite false m e =>
      let n := Zpos m * 2 ^ Z.max e 0 in
      let d := 2 ^ Z.max (- e) 0 in
      let k := floor_log10 n d in
      let a := n * 10 ^ Z.max (- k) 0 in
      let b := d * 10 ^ Z.max k 0 in
      let num := 9 * b * k + a - b in
      nearest (num <? 0) (Z.abs num) (Z.to_pos (9 * b))
  | _ => nan
  end.

Definition ref_pow (x y : float) : float :=
  match Prim2SF x, py_int y with
  | S754_finite false m e, Ok k =>
      let n := Zpos m * 2 ^ Z.max e 0 in
      let d := 2 ^ Z.max (- e) 0 in
      if 0 <=? k then nearest false (n ^ k) (Z.to_pos (d ^ k))
      else nearest false (d ^ (- k)) (Z.to_pos (n ^ (- k)))
  | _, _ => nan
  end.

Definition ref_platform : platform :=
  {| c_log10 := ref_log10; c_pow := ref_pow; to_decimal := fun _ => None |}.

(** ** Regular expressions

    The constructs the two patterns of [si_parse] are written with, matched
    by backtracking in the order of Python's [re]: greedy repetition and
    option first, then the shorter alternatives. *)
Inductive regex : Type :=
| Empty
| Class (p : N -> bool)
| Star (p : N -> bool)
| Plus (p : N -> bool)
| Opt (r : regex)
| Seq (a b : regex)
| Group (name : string) (r : regex)
| Bol
| Eol.

Definition cat (rs : list regex) : regex := fold_right Seq Empty rs.

Definition captures := list (string * str).

Fixpoint star {R} (p : N -> bool) (s : str) (k : str -> option R) : option R :=
  match s with
  | c :: s' =>
      if p c then match star p s' k with
                  | Some r => Some r
                  | None => k s
                  end
      else k s
  | [] => k s
  end.

Fixpoint exec (r : regex) (len0 : nat) (s : str) (caps : captures)
         (k : str -> captures -> option captures) : option captures :=
  match r with
  | Empty => k s caps
  | Class p =>
      match s with
      | c :: s' => if p c then k s' caps else None
      | [] => None
      end
  | Star p => star p s (fun s' => k s' caps)
  | Plus p =>
      match s with
      | c :: s' => if p c then star p s' (fun s'' => k s'' caps) else None
      | [] => None
      end
  | Opt r' =>
      match exec r' len0 s caps k with
      | Some m => Some m
      | None => k s caps
      end
  | Seq a b => exec a len0 s caps (fun s' caps' => exec b len0 s' caps' k)
  | Group name r' =>
      exec r' len0 s caps
           (fun s' caps' =>
              k s' ((name, firstn (List.length s - List.length s') s) :: caps'))
  | Bol => if Nat.eqb (List.length s) len0 then k s caps else None
  | Eol =>
      match s with
      | [] => k s caps
      | [c] => if (c =? 10)%N then k s caps else None
      | _ => None
      end
  end.

(** [pattern.match(s)]: a match anchored at the start of [s]. *)
Definition re_match (r : regex) (s : str) : option captures :=
  exec r (List.length s) s [] (fun _ caps => Some caps).

(** [m.group(name)]: [None] for a group that took no part in the match. *)
Fixpoint group (m : captures) (name : string) : option str :=
  match m with
  | (n, v) :: rest => if String.eqb n name then Some v else group rest name
  | [] => None
  end.

Fixpoint group_names (r : regex) : list string :=
  match r with
  | Opt r' => group_names r'
  | Seq a b => group_names a ++ group_names b
  | Group name r' => name :: group_names r'
  | _ => []
  end.

(** [m.groupdict()]: every named group of the pattern, with its text or
    [None]. *)
Definition groupdict (r : regex) (m : captures) : list (string * option str) :=
  map (fun n => (n, group m n)) (group_names r).

(** [d[key]] on a dictionary *)
Fixpoint getitem {V} (d : list (string * V)) (key : string) : outcome V :=
  match d with
  | (k, v) :: rest => if String.eqb k key then Ok v else getitem rest key
  | [] => Raise KeyError
  end.

Definition re_space : N -> bool := is_space.

Definition re_digit (pf : platform) (c : N) : bool :=
  if (c <? 128)%N then is_digit c
  else match to_decimal pf c with Some _ => true | None => false end.

Definition re_any (c : N) : bool := negb (c =? 10)%N.

Definition one_of (set : str) (c : N) : bool := existsb (N.eqb c) set.

(** ** Numbers shared by the two modules *)

(** [math.log10(x)] *)
Definition math_log10 (pf : platform) (x : float) : outcome float :=
  if is_nan x then Ok x
  else if (0 <? x)%float then Ok (if is_infinity x then x else c_log10 pf x)
  else Raise ValueError.

(** [10 ** n] for an [int] [n]: an [int] when [n >= 0], else the float
    [pow(10.0, n)]. *)
Definition ten_pow (pf : platform) (n : Z) : outcome num :=
  if 0 <=? n then Ok (PyInt (10 ^ n))
  else
    b <- float_of_int 10 ;;
    e <- float_of_int n ;;
    Ok (PyFloat (c_pow pf b e)).

(** [s[i]] on a string *)
Definition str_getitem (s : str) (i : Z) : outcome str :=
  let j := if i <? 0 then i + Z.of_nat (List.length s) else i in
  if j <? 0 then Raise IndexError
  else match nth_error s (Z.to_nat j) with
       | Some c => Ok [c]
       | None => Raise IndexError
       end.

(** * The flat module, [si_prefix.py] *)
Module Flat.

Definition SI_PREFIX_UNITS : str := lit "yzafpn" ++ [181%N] ++ lit "m kMGTPEZY".

Definition CRE_SI_NUMBER (pf : platform) : regex :=
  cat [ Star re_space;
        Opt (Group "sign" (Class (one_of (lit "+-"))));
        Group "integer" (Plus (re_digit pf));
        Opt (Group "fraction" (Seq (Class re_any) (Plus (re_digit pf))));
        Star re_space;
        Opt (Group "si_unit" (Class (one_of SI_PREFIX_UNITS)));
        Star re_space ].

Definition split (pf : platform) (value : float) (precision : Z)
  : outcome (float * Z) :=
  let digits := precision + 1 in
  let negative := (value <? 0)%float in
  let value := if negative then (- value)%float else value in
  if negb negative && (value =? 0)%float then Ok (0%float, 0)
  else
    l <- math_log10 pf value ;;
    expof10 <- py_int l ;;
    let expof10 :=
      if 0 <? expof10 then expof10 / 3 * 3 else (- expof10 + 3) / 3 * -3 in
    scale <- ten_pow pf (- expof10) ;;
    value <- float_mul value scale ;;
    let '(value, expof10, digits) :=
      if (1e3 <=? value)%float then ((value / 1000)%float, expof10 + 3, digits)
      else if (100 <=? value)%float then (value, expof10, digits - 2)
      else if (10 <=? value)%float then (value, expof10, digits - 1)
      else (value, expof10, digits) in
    value <- (if negative then float_mul value (PyInt (-1)) else Ok value) ;;
    Ok (value, expof10).

Definition prefix (expof10 : Z) : outcome str :=
  let prefix_levels := (Z.of_nat (List.length SI_PREFIX_UNITS) - 1) / 2 in
  let si_level := expof10 / 3 in
  if prefix_levels <? Z.abs si_level then Raise ValueError
  else str_getitem SI_PREFIX_UNITS (si_level + prefix_levels).

Definition default_format_str : str := lit "{value} {prefix}".
Definition default_exp_format_str : str := lit "{value}e{expof10}".

Definition si_format (pf : platform) (value : float) (precision : Z)
           (format_str exp_format_str : str) : outcome str :=
  '(svalue, expof10) <- split pf value precision ;;
  value_str <- format_f svalue precision ;;
  except_ValueError
    (p <- prefix expof10 ;;
     str_format format_str [(lit "value", value_str); (lit "prefix", strip p)])
    (let sign := if 0 <? expof10 then lit "+" else lit "" in
     str_format exp_format_str
                [(lit "value", value_str);
                 (lit "expof10", join (lit "") [sign; str_of_int expof10])]).

Definition cre_10e_number (pf : platform) : regex :=
  cat [ Bol; Star re_space;
        Opt (Group "integer"
                   (Seq (Opt (Class (one_of (lit "+-")))) (Plus (re_digit pf))));
        Opt (Group "fraction" (Seq (Class re_any) (Plus (re_digit pf))));
        Star re_space;
        Opt (cat [ Class (one_of (lit "eE")); Star re_space;
                   Group "expof10"
                         (Seq (Opt (Class (one_of (lit "+-"))))
                              (Plus (re_digit pf))) ]);
        Eol ].

Definition is_None {A} (o : option A) : bool :=
  match o with None => true | Some _ => false end.

(** [float(o)] for the value of a dictionary of groups: [None] is not a
    number. *)
Definition float_of_group (pf : platform) (o : option str) : outcome float :=
  match o with
  | Some s => float_of_str pf s
  | None => Raise TypeError
  end.

Definition si_parse (pf : platform) (value : str) : outcome float :=
  match re_match (cre_10e_number pf) value with
  | Some m =>
      if is_None (group m "integer") && is_None (group m "fraction")
      then Raise ValueError
      else float_of_str pf value
  | None =>
      match re_match (CRE_SI_NUMBER pf) value with
      | None => Raise ValueError
      | Some m =>
          if is_None (group m "integer") && is_None (group m "fraction")
          then Raise ValueError
          else
            let d := groupdict (CRE_SI_NUMBER pf) m in
            u <- getitem d "si_unit" ;;
            let si_unit :=
              match u with
              | Some ((_ :: _) as unit) => unit
              | _ => lit " "
              end in
            let prefix_levels :=
              (Z.of_nat (List.length SI_PREFIX_UNITS) - 1) / 2 in
            i <- index SI_PREFIX_UNITS si_unit ;;
            scale <- ten_pow pf (3 * (i - prefix_levels)) ;;
            number <- getitem d "number" ;;
            x <- float_of_group pf number ;;
            ret_val <- float_mul x scale ;;
            Ok ret_val
      end
  end.

Definition si_prefix_expof10 (si_unit : str) : outcome Z :=
  let prefix_levels := (Z.of_nat (List.length SI_PREFIX_UNITS) - 1) / 2 in
  i <- index SI_PREFIX_UNITS si_unit ;;
  Ok (3 * (i - prefix_levels)).

Definition si_prefix_scale (pf : platform) (si_unit : str) : outcome Z :=
  e <- si_prefix_expof10 si_unit ;;
  ret_val <- ten_pow pf e ;;
  match ret_val with
  | PyInt z => Ok z
  | PyFloat _ => Raise TypeError
  end.

End Flat.

(** * The package, [si_prefix/__init__.py] *)
Module Pkg.

Record _SiPrefix : Set := {
  short_name : str;
  long_name : str;
  exponent : Z
}.

Definition get_e_string (self : _SiPrefix) : str :=
  lit "e" ++ str_of_int (exponent self).

Definition SI_PREFIXES : list _SiPrefix :=
  [ Build__SiPrefix (lit "y") (lit "yocto") (-24);
    Build__SiPrefix (lit "z") (lit "zepto") (-21);
    Build__SiPrefix (lit "a") (lit "atto") (-18);
    Build__SiPrefix (lit "f") (lit "femto") (-15);
    Build__SiPrefix (lit "p") (lit "pico") (-12);
    Build__SiPrefix (lit "n") (lit "nano") (-9);
    Build__SiPrefix [181%N] (lit "micro") (-6);
    Build__SiPrefix (lit "m") (lit "milli") (-3);
    Build__SiPrefix (lit "") (lit "") 0;
    Build__SiPrefix (lit "k") (lit "kilo") 3;
    Build__SiPrefix (lit "M") (lit "mega") 6;
    Build__SiPrefix (lit "G") (lit "giga") 9;
    Build__SiPrefix (lit "T") (lit "tera") 12;
    Build__SiPrefix (lit "P") (lit "peta") 15;
    Build__SiPrefix (lit "E") (lit "exa") 18;
    Build__SiPrefix (lit "Z") (lit "zetta") 21;
    Build__SiPrefix (lit "Y") (lit "yotta") 24 ].

Definition _split (pf : platform) (value : float) (precision : Z)
  : outcome (float * Z) :=
  let negative := (value <? 0)%float in
  let value := if negative then (- value)%float else value in
  if negb negative && (value =? 0)%float then Ok (0%float, 0)
  else
    l <- math_log10 pf value ;;
    exp_of_10 <- py_int l ;;
    let exp_of_10 :=
      if 0 <? exp_of_10 then exp_of_10 / 3 * 3
      else (- exp_of_10 + 3) / 3 * -3 in
    scale <- ten_pow pf (- exp_of_10) ;;
    value <- float_mul value scale ;;
    let '(value, exp_of_10) :=
      if (1e3 <=? value)%float then ((value / 1000)%float, exp_of_10 + 3)
      else (value, exp_of_10) in
    value <- (if negative then float_mul value (PyInt (-1)) else Ok value) ;;
    rounded <- py_round value precision ;;
    Ok (rounded, exp_of_10).

Fixpoint first_with_exponent (table : list _SiPrefix) (exp_of_10 : Z)
  : outcome str :=
  match table with
  | si_prefix :: rest =>
      if exp_of_10 =? exponent si_prefix then Ok (short_name si_prefix)
      else first_with_exponent rest exp_of_10
  | [] => Raise ValueError
  end.

Definition _prefix (exp_of_10 : Z) : outcome str :=
  first_with_exponent SI_PREFIXES exp_of_10.

Definition default_format_str : str := lit "{value} {prefix}".
Definition default_exp_format_str : str := lit "{value}e{exp_of_10}".

Definition with_format (pf : platform) (value : float) (precision : Z)
           (format_str exp_format_str : str) : outcome str :=
  '(scale_value, exp_of_10) <- _split pf value precision ;;
  value_str <- format_f scale_value precision ;;
  except_ValueError
    (p <- _prefix exp_of_10 ;;
     str_format format_str [(lit "value", value_str); (lit "prefix", strip p)])
    (if exp_of_10 =? 0 then Ok value_str
     else
       let sign := if 0 <? exp_of_10 then lit "+" else lit "" in
       str_format exp_format_str
                  [(lit "value", value_str);
                   (lit "exp_of_10", join (lit "") [sign; str_of_int exp_of_10])]).

Definition parse (pf : platform) (value : str) : outcome float :=
  let value := replace (lit " ") (lit "") value in
  let value :=
    fold_left (fun v si_prefix =>
                 replace (short_name si_prefix) (get_e_string si_prefix) v)
              SI_PREFIXES value in
  float_of_str pf value.

End Pkg.

(** * Vocabulary of the statements *)

Definition letter_e : N := chr "e".

(** One step of the loop of [parse]. *)
Definition replace_prefix (v : str) (si_prefix : Pkg._SiPrefix) : str :=
  replace (Pkg.short_name si_prefix) (Pkg.get_e_string si_prefix) v.

Definition one_char_not_e (si_prefix : Pkg._SiPrefix) : Prop :=
  exists k, Pkg.short_name si_prefix = [k] /\ (k =? letter_e)%N = false.

(** The exponent [_split] and [split] align [int(log10(value))] to. *)
Definition aligned (k : Z) : Z :=
  if 0 <? k then k / 3 * 3 else (- k + 3) / 3 * -3.

(** The exponents of the table: the multiples of 3 in [-24, 24]. *)
Definition in_table (e : Z) : bool :=
  (-24 <=? e) && (e <=? 24) && (e mod 3 =? 0).

(** The exponent as the fallback writes it: a sign, then the digits. *)
Definition signed_exponent (e : Z) : str :=
  (if 0 <? e then lit "+" else lit "-") ++ str_of_nonneg (Z.abs e).

(** What a match of [CRE_SI_NUMBER] holds: the digits of the integer
    part, and for the unit one character of [SI_PREFIX_UNITS] if any. *)
Definition no_unit (c : captures) : Prop := group c "si_unit" = None.

Definition has_integer (c : captures) : Prop :=
  exists v, group c "integer" = Some v.

Definition unit_ok (c : captures) : Prop :=
  group c "si_unit" = None
  \/ exists ch, group c "si_unit" = Some [ch]
                /\ one_of Flat.SI_PREFIX_UNITS ch = true.

(** * Properties *)

(** ** The runtime model and the modules on the documented examples *)

Example str_of_int_ex :
  str_of_int 0 = lit "0" /\ str_of_int (-27) = lit "-27"
  /\ str_of_int 1000 = lit "1000" /\ str_of_int 9 = lit "9".
Proof. repeat split; reflexivity. Qed.

Example replace_ex :
  replace (lit "") (lit "e0") (lit "ab") = lit "e0ae0be0"
  /\ replace (lit "k") (lit "e3") (lit "4.78k") = lit "4.78e3"
  /\ replace (lit "aa") (lit "b") (lit "aaa") = lit "ba".
Proof. repeat split; reflexivity. Qed.

Example nearest_ex :
  nearest false 99996 100 = 999.96%float
  /\ nearest false 1 1000 = 0.001%float
  /\ nearest true 1 (10 ^ 27) = (-1e-27)%float
  /\ float_of_int (10 ^ 30) = Ok 1e30%float
  /\ float_of_int (10 ^ 309) = Raise OverflowError
  /\ float_of_int (-1) = Ok (-1)%float.
Proof. repeat split; vm_compute; reflexivity. Qed.

Example py_round_ex :
  py_round 999.96 1 = Ok 1000%float
  /\ py_round 2.675 2 = Ok 2.67%float
  /\ py_round 0.5 0 = Ok 0%float
  /\ py_round 1.5 0 = Ok 2%float
  /\ py_round (-0.04) 1 = Ok (-0)%float
  /\ py_round 1234.5 (-2) = Ok 1200%float
  /\ py_round 4.781123 1 = Ok 4.8%float.
Proof. repeat split; vm_compute; reflexivity. Qed.

Example format_f_ex :
  format_f 47.81 2 = Ok (lit "47.81")
  /\ format_f 1000 1 = Ok (lit "1000.0")
  /\ format_f 2.5 0 = Ok (lit "2")
  /\ format_f 0.05 3 = Ok (lit "0.050")
  /\ format_f (-0.01) 1 = Ok (lit "-0.0")
  /\ format_f 1 (-1) = Raise ValueError.
Proof. repeat split; vm_compute; reflexivity. Qed.

Example py_int_ex :
  py_int 2.9999826 = Ok 2 /\ py_int (-26.99) = Ok (-26)
  /\ py_int (-0.3) = Ok 0 /\ py_int infinity = Raise OverflowError.
Proof. repeat split; vm_compute; reflexivity. Qed.

Example str_format_ex :
  let kw := [(lit "value", lit "4.78"); (lit "prefix", lit "k")] in
  str_format (lit "{value} {prefix}") kw = Ok (lit "4.78 k")
  /\ str_format (lit "{{{value:>6}}}{prefix:^3}|") kw = Ok (lit "{  4.78} k |")
  /\ str_format (lit "{value:.2}{prefix:s}") kw = Ok (lit "4.k")
  /\ str_format (lit "{value:d}") kw = Raise ValueError
  /\ str_format (lit "{value:+}") kw = Raise ValueError
  /\ str_format (lit "{value}}") kw = Raise ValueError
  /\ str_format (lit "{exponent}") kw = Raise KeyError
  /\ str_format (lit "{} {prefix}") kw = Raise IndexError.
Proof. repeat split; vm_compute; reflexivity. Qed.

Example float_of_str_ex :
  float_of_str ref_platform (lit "1.0e-27") = Ok 1e-27%float
  /\ float_of_str ref_platform (lit " -4.78e3 ") = Ok (-4780)%float
  /\ float_of_str ref_platform (lit "1_000.5") = Ok 1000.5%float
  /\ float_of_str ref_platform (lit ".5") = Ok 0.5%float
  /\ float_of_str ref_platform (lit "1.") = Ok 1%float
  /\ float_of_str ref_platform (lit "-Infinity") = Ok neg_infinity
  /\ float_of_str ref_platform (lit "1e400") = Ok infinity
  /\ float_of_str ref_platform (lit "e0") = Raise ValueError
  /\ float_of_str ref_platform (lit "1e") = Raise ValueError
  /\ float_of_str ref_platform (lit "1 0") = Raise ValueError
  /\ float_of_str ref_platform (lit "1__0") = Raise ValueError
  /\ float_of_str ref_platform (lit "") = Raise ValueError.
Proof. repeat split; vm_compute; reflexivity. Qed.

Example ref_platform_ex :
  py_int (ref_log10 999.96) = Ok 2 /\ py_int (ref_log10 0.04781) = Ok (-1)
  /\ ref_log10 1000 = 3%float /\ py_int (ref_log10 1e-27) = Ok (-27)
  /\ ref_log10 0.001 = (-3)%float /\ py_int (ref_log10 4781.123) = Ok 3
  /\ ref_pow 10 (-3) = 0.001%float /\ ref_pow 10 (-27) = 1e-27%float.
Proof. repeat split; vm_compute; reflexivity. Qed.

Example split_ex :
  Pkg._split ref_platform 0.04784 1 = Ok (47.8%float, -3)
  /\ Pkg._split ref_platform 4781.123 1 = Ok (4.8%float, 3)
  /\ Pkg._split ref_platform (-0.04784) 2 = Ok ((-47.84)%float, -3)
  /\ Pkg._split ref_platform (-0) 1 = Ok (0%float, 0)
  /\ Pkg._split ref_platform 1e29 1 = Ok (100%float, 27)
  /\ Pkg._split ref_platform 1e-27 1 = Ok (1%float, -27)
  /\ Pkg._split ref_platform 999.96 1 = Ok (1000%float, 0)
  /\ Flat.split ref_platform 4781.123 1 = Ok (4.781123%float, 3).
Proof. repeat split; vm_compute; reflexivity. Qed.

Example with_format_ex :
  let f v p := Pkg.with_format ref_platform v p Pkg.default_format_str
                               Pkg.default_exp_format_str in
  f 0.04781%float 2 = Ok (lit "47.81 m")
  /\ f 4781.123%float 2 = Ok (lit "4.78 k")
  /\ f 1e-27%float 1 = Ok (lit "1.0e-27")
  /\ f 291733%float 2 = Ok (lit "291.73 k")
  /\ f 1.55051e+28%float 2 = Ok (lit "15.51e+27")
  /\ f 3.93766%float 2 = Ok (lit "3.94 ")
  /\ f 999.96%float 1 = Ok (lit "1000.0 ").
Proof. repeat split; vm_compute; reflexivity. Qed.

Example si_parse_ex :
  Flat.si_parse ref_platform (lit "1.0e-27") = Ok 1e-27%float
  /\ Flat.si_parse ref_platform (lit "4.78 k") = Raise KeyError
  /\ Flat.si_parse ref_platform (lit "not a number") = Raise ValueError
  /\ Flat.si_parse ref_platform (lit "+.5") = Raise ValueError
  /\ Pkg.parse ref_platform (lit "4.78 k") = Raise ValueError.
Proof. repeat split; vm_compute; reflexivity. Qed.


(** ** [parse] of the package never returns *)

Lemma lstrip_c_snoc (l : str) (c : N) :
  is_c_space c = false -> exists l', lstrip_c (l ++ [c]) = l' ++ [c].
Proof.
  intros Hc. induction l as [|a l IH]; simpl.
  - rewrite Hc. exists []. reflexivity.
  - destruct (is_c_space a).
    + exact IH.
    + exists (a :: l). reflexivity.
Qed.

Lemma rstrip_c_head (c : N) (a : str) :
  is_c_space c = false -> exists b, rev (lstrip_c (rev (c :: a))) = c :: b.
Proof.
  intros Hc. simpl rev.
  destruct (lstrip_c_snoc (rev a) c Hc) as [l' E]. rewrite E.
  rewrite rev_app_distr. simpl. exists (rev l'). reflexivity.
Qed.

Lemma strtod_head_e (t : str) : strtod (letter_e :: t) = None.
Proof. reflexivity. Qed.

Section AnyPlatform.

Variable pf : platform.

Lemma to_ascii_head_e (r : str) :
  exists a, to_ascii pf (letter_e :: r) = letter_e :: a.
Proof.
  unfold to_ascii. destruct (forallb _ (letter_e :: r)).
  - exists r. reflexivity.
  - exists (transform_decimal_and_space pf r). reflexivity.
Qed.

Lemma float_of_str_head_e (r : str) :
  float_of_str pf (letter_e :: r) = Raise ValueError.
Proof.
  unfold float_of_str.
  destruct (to_ascii_head_e r) as [a ->].
  change (drop_underscores 0%N (letter_e :: a))
    with (option_map (cons letter_e) (drop_underscores letter_e a)).
  destruct (drop_underscores letter_e a) as [b|]; simpl option_map; [|reflexivity].
  cbv iota beta.
  change (lstrip_c (letter_e :: b)) with (letter_e :: b).
  destruct (rstrip_c_head letter_e b eq_refl) as [b' ->].
  rewrite strtod_head_e. reflexivity.
Qed.

Lemma replace_keeps_head (c k : N) (new r : str) :
  (k =? c)%N = false ->
  exists r', replace [k] new (c :: r) = c :: r'.
Proof.
  intros H. unfold replace. simpl. rewrite H. simpl.
  eexists. reflexivity.
Qed.

Lemma replace_empty_head (c : N) (new s : str) :
  exists r, replace [] (c :: new) s = c :: r.
Proof. eexists. reflexivity. Qed.

Lemma fold_replace_keeps_head (table : list Pkg._SiPrefix) :
  Forall one_char_not_e table ->
  forall r, exists r', fold_left replace_prefix table (letter_e :: r) = letter_e :: r'.
Proof.
  induction 1 as [|p table [k [Hk Hne]] _ IH]; intros r; simpl.
  - exists r. reflexivity.
  - unfold replace_prefix at 2. rewrite Hk.
    destruct (replace_keeps_head letter_e k (Pkg.get_e_string p) r Hne) as [r1 ->].
    apply IH.
Qed.

Lemma parse_raises (s : str) :
  Pkg.parse pf s = Raise ValueError.
Proof.
  unfold Pkg.parse.
  change (fun v si_prefix =>
            replace (Pkg.short_name si_prefix) (Pkg.get_e_string si_prefix) v)
    with replace_prefix.
  rewrite <- (firstn_skipn 8 Pkg.SI_PREFIXES), fold_left_app.
  set (s8 := fold_left _ (firstn 8 _) _). clearbody s8.
  change (skipn 8 Pkg.SI_PREFIXES)
    with (Pkg.Build__SiPrefix (lit "") (lit "") 0 :: skipn 9 Pkg.SI_PREFIXES).
  cbn [fold_left].
  destruct (replace_empty_head letter_e (lit "0") s8) as [r0 E].
  change (replace_prefix s8 _) with (replace [] (letter_e :: lit "0") s8).
  rewrite E.
  destruct (fold_replace_keeps_head (skipn 9 Pkg.SI_PREFIXES)) with (r := r0)
    as [r1 ->].
  - repeat constructor; eexists; split; reflexivity.
  - apply float_of_str_head_e.
Qed.

Lemma float_of_int_cases (n : Z) :
  (exists x, float_of_int n = Ok x) \/ float_of_int n = Raise OverflowError.
Proof.
  unfold float_of_int. destruct (is_infinity _); [right|left; eexists]; reflexivity.
Qed.

Lemma ten_pow_cases (n : Z) :
  (exists x, ten_pow pf n = Ok x) \/ ten_pow pf n = Raise OverflowError.
Proof.
  unfold ten_pow. destruct (0 <=? n); [left; eexists; reflexivity|].
  change (float_of_int 10) with (Ok 10%float). cbn [bind].
  destruct (float_of_int_cases n) as [[x ->] | ->]; cbn [bind];
    [left; eexists|right]; reflexivity.
Qed.

Lemma index_cases (s sub : str) :
  (exists i, index s sub = Ok i) \/ index s sub = Raise ValueError.
Proof.
  unfold index. destruct (find_from sub s 0); [left; eexists|right]; reflexivity.
Qed.

(** On the second pattern [si_parse] reads the group [number], which the
    pattern does not define: a string that is not plain decimal notation
    never yields a value. *)
Lemma si_parse_prefixed_raises (s : str) :
  re_match (Flat.cre_10e_number pf) s = None ->
  exists e, Flat.si_parse pf s = Raise e.
Proof.
  intros H. unfold Flat.si_parse. rewrite H.
  destruct (re_match (Flat.CRE_SI_NUMBER pf) s) as [m|]; [|eexists; reflexivity].
  destruct (_ && _); [eexists; reflexivity|].
  change (groupdict (Flat.CRE_SI_NUMBER pf) m)
    with [("sign"%string, group m "sign"); ("integer"%string, group m "integer");
          ("fraction"%string, group m "fraction");
          ("si_unit"%string, group m "si_unit")].
  cbn [getitem String.eqb Ascii.eqb Bool.eqb bind].
  destruct (index_cases Flat.SI_PREFIX_UNITS
              match group m "si_unit" with
              | Some ((_ :: _) as unit) => unit
              | _ => lit " "
              end) as [[i ->] | ->]; cbn [bind]; [|eexists; reflexivity].
  destruct (ten_pow_cases
              (3 * (i - (Z.of_nat (List.length Flat.SI_PREFIX_UNITS) - 1) / 2)))
    as [[x ->] | ->]; cbn [bind]; eexists; reflexivity.
Qed.

(** On its first pattern [si_parse] returns what [float] returns. *)
Lemma si_parse_bare_number (s : str) (m : captures) :
  re_match (Flat.cre_10e_number pf) s = Some m ->
  group m "integer" <> None \/ group m "fraction" <> None ->
  Flat.si_parse pf s = float_of_str pf s.
Proof.
  intros Hm Hg. unfold Flat.si_parse. rewrite Hm.
  destruct (group m "integer"), (group m "fraction"); simpl; try reflexivity.
  destruct Hg as [Hg|Hg]; contradiction.
Qed.

End AnyPlatform.

(** The first example of the documentation of [with_format], for every
    C library that is off by less than one at [log10] and by at most one
    unit in the last place at [pow]. *)
Lemma with_format_4781 (pf : platform) :
  py_int (c_log10 pf 4781.123) = Ok 3 ->
  In (c_pow pf 10 (-3)) [next_down 0.001; 0.001%float; next_up 0.001] ->
  Pkg.with_format pf 4781.123 2 Pkg.default_format_str
                  Pkg.default_exp_format_str = Ok (lit "4.78 k").
Proof.
  intros H Hp.
  assert (Hs : Pkg._split pf 4781.123 2 = Ok (4.78%float, 3)).
  { unfold Pkg._split, math_log10. cbn. rewrite H. cbn [bind].
    replace (ten_pow pf _) with (Ok (PyFloat (c_pow pf 10 (-3))))
      by reflexivity.
    cbn [bind float_mul].
    destruct Hp as [<-|[<-|[<-|[]]]]; vm_compute; reflexivity. }
  unfold Pkg.with_format. rewrite Hs. vm_compute. reflexivity.
Qed.

(** C1. The round trip [parse(format(value, precision))] never recovers
    the value: whatever text [with_format] returns, [parse] raises
    [ValueError] on it, because replacing the empty symbol of the
    zero-exponent entry puts [e0] in front of the text. *)
Theorem roundtrip_parse_raises (pf : platform) (value : float)
        (precision : Z) (format_str exp_format_str s : str) :
  Pkg.with_format pf value precision format_str exp_format_str = Ok s ->
  Pkg.parse pf s = Raise ValueError.
Proof. intros _. apply parse_raises. Qed.

Lemma roundtrip_parse_raises_witness :
  Pkg.with_format ref_platform 4781.123 2 Pkg.default_format_str
                  Pkg.default_exp_format_str = Ok (lit "4.78 k")
  /\ Pkg.parse ref_platform (lit "4.78 k") = Raise ValueError.
Proof.
  assert (H : Pkg.with_format ref_platform 4781.123 2 Pkg.default_format_str
                Pkg.default_exp_format_str = Ok (lit "4.78 k"))
    by (vm_compute; reflexivity).
  split; [exact H|].
  exact (roundtrip_parse_raises ref_platform 4781.123 2 _ _ _ H).
Defined.

(** C2. Parsing SI-prefixed text does not return the scaled number:
    [parse] raises [ValueError] on every string, in particular on
    ["4.78 k"] and ["47.8 m"]; [si_parse] raises [KeyError] on them, and
    an exception on every string its first pattern rejects. *)
Theorem parse_prefixed_text_raises (pf : platform) :
  (forall s, Pkg.parse pf s = Raise ValueError)
  /\ Pkg.parse pf (lit "4.78 k") = Raise ValueError
  /\ Pkg.parse pf (lit "47.8 m") = Raise ValueError
  /\ Flat.si_parse pf (lit "4.78 k") = Raise KeyError
  /\ Flat.si_parse pf (lit "47.8 m") = Raise KeyError
  /\ (forall s x, Flat.si_parse pf s = Ok x ->
                  re_match (Flat.cre_10e_number pf) s <> None).
Proof.
  split; [apply parse_raises|].
  split; [apply parse_raises|].
  split; [apply parse_raises|].
  split; [vm_compute; reflexivity|].
  split; [vm_compute; reflexivity|].
  intros s x Hok Hnone.
  destruct (si_parse_prefixed_raises pf s Hnone) as [e He].
  rewrite He in Hok. discriminate.
Qed.

(** C5. On plain decimal notation [parse] raises [ValueError] where its
    documentation promises the float: [parse("1.0e-27")] does not return
    [1e-27]; [si_parse] of the flat module does return it. *)
Theorem parse_bare_number_raises (pf : platform) :
  Pkg.parse pf (lit "1.0e-27") = Raise ValueError
  /\ Flat.si_parse pf (lit "1.0e-27") = Ok 1e-27%float
  /\ float_of_str pf (lit "1.0e-27") = Ok 1e-27%float.
Proof.
  split; [apply parse_raises|].
  split; vm_compute; reflexivity.
Qed.

(** ** The decomposition *)

Ltac step_bind :=
  match goal with
  | H : bind ?c _ = Ok _ |- _ =>
      let x := fresh "x" in
      destruct c as [x| |]; cbn [bind] in H; [|discriminate H|discriminate H]
  end.

Lemma aligned_exponent (k : Z) : aligned k mod 3 = 0.
Proof.
  unfold aligned. destruct (0 <? k).
  - apply Z_mod_mult.
  - replace ((- k + 3) / 3 * -3) with (- ((- k + 3) / 3) * 3) by ring.
    apply Z_mod_mult.
Qed.

(** The exponent both decompositions return is a multiple of 3. *)
Lemma _split_exponent (pf : platform) (value : float) (precision : Z)
      (m : float) (e : Z) :
  Pkg._split pf value precision = Ok (m, e) -> e mod 3 = 0.
Proof.
  unfold Pkg._split. intros H.
  destruct (negb _ && _); [injection H as _ <-; reflexivity|].
  do 4 step_bind.
  pose proof (aligned_exponent x0) as Ha.
  change (if 0 <? x0 then x0 / 3 * 3 else (- x0 + 3) / 3 * -3)
    with (aligned x0) in H.
  destruct (1e3 <=? x2)%float; do 2 step_bind;
    injection H as _ <-;
    try exact Ha; revert Ha; generalize (aligned x0); intros a Ha;
    Z.div_mod_to_equations; lia.
Qed.

Lemma split_exponent (pf : platform) (value : float) (precision : Z)
      (m : float) (e : Z) :
  Flat.split pf value precision = Ok (m, e) -> e mod 3 = 0.
Proof.
  unfold Flat.split. intros H.
  destruct (negb _ && _); [injection H as _ <-; reflexivity|].
  do 4 step_bind.
  pose proof (aligned_exponent x0) as Ha.
  change (if 0 <? x0 then x0 / 3 * 3 else (- x0 + 3) / 3 * -3)
    with (aligned x0) in H.
  destruct (1e3 <=? x2)%float;
    [|destruct (100 <=? x2)%float; [|destruct (10 <=? x2)%float]];
    step_bind; injection H as _ <-;
    try exact Ha; revert Ha; generalize (aligned x0); intros a Ha;
    Z.div_mod_to_equations; lia.
Qed.

(** C3. [_split(999.96, 1)] returns the mantissa [1000.0] with exponent
    [0]: the test against one thousand comes before the rounding, so a
    mantissa that rounds up to 1000 is not renormalised to [(1.0, 3)].
    The only assumption is that the C library puts
    [log10(999.96)] in [[2, 3)]. *)
Theorem pkg_split_returns_1000 (pf : platform) :
  py_int (c_log10 pf 999.96) = Ok 2 ->
  Pkg._split pf 999.96 1 = Ok (1000%float, 0).
Proof.
  intros H. unfold Pkg._split, math_log10. cbn.
  rewrite H. vm_compute. reflexivity.
Qed.

Lemma pkg_split_returns_1000_witness :
  py_int (c_log10 ref_platform 999.96) = Ok 2
  /\ Pkg._split ref_platform 999.96 1 = Ok (1000%float, 0).
Proof.
  assert (H : py_int (c_log10 ref_platform 999.96) = Ok 2)
    by (vm_compute; reflexivity).
  split; [exact H|].
  exact (pkg_split_returns_1000 ref_platform H).
Defined.

(** C4. [split] of the flat module returns the scaled value without
    rounding it: [split(0.04781, 1)] is [(47.809999999999995, -3)], not
    the [(47.8, -3)] of its documentation, although rounding that mantissa
    to one digit gives [47.8].  The only assumption is that the C library
    puts [log10(0.04781)] in [(-2, -1]]. *)
Theorem split_returns_unrounded (pf : platform) :
  py_int (c_log10 pf 0.04781) = Ok (-1) ->
  Flat.split pf 0.04781 1 = Ok (47.809999999999995%float, -3)
  /\ py_round 47.809999999999995 1 = Ok 47.8%float
  /\ 47.809999999999995%float <> 47.8%float.
Proof.
  intros H. split; [|split].
  - unfold Flat.split, math_log10. cbn.
    rewrite H. vm_compute. reflexivity.
  - vm_compute. reflexivity.
  - intros E. apply (f_equal Prim2SF) in E. vm_compute in E. discriminate E.
Qed.

Lemma split_returns_unrounded_witness :
  py_int (c_log10 ref_platform 0.04781) = Ok (-1)
  /\ Flat.split ref_platform 0.04781 1 = Ok (47.809999999999995%float, -3).
Proof.
  assert (H : py_int (c_log10 ref_platform 0.04781) = Ok (-1))
    by (vm_compute; reflexivity).
  split; [exact H|].
  exact (proj1 (split_returns_unrounded ref_platform H)).
Defined.

(** The mantissa [_split] returns is a result of [round] at the given
    precision, or the zero of the first branch. *)
Lemma _split_mantissa_is_rounded (pf : platform) (value : float)
      (precision : Z) (m : float) (e : Z) :
  Pkg._split pf value precision = Ok (m, e) ->
  (m = 0%float /\ e = 0) \/ exists x, py_round x precision = Ok m.
Proof.
  unfold Pkg._split. intros H.
  destruct (negb _ && _); [injection H as <- <-; left; split; reflexivity|].
  do 4 step_bind. right.
  destruct (1e3 <=? x2)%float; step_bind;
    destruct (py_round _ precision) as [r| |] eqn:Hr; cbn [bind] in H;
    try discriminate H; injection H as <- _; eexists; exact Hr.
Qed.

(** A finite value below about [1e-306] makes [_split] raise: the scale
    [10 ** 309] is an [int] too large for the float multiplication. *)
Lemma _split_overflow (pf : platform) (precision : Z) :
  py_int (c_log10 pf 1e-307) = Ok (-307)
  \/ py_int (c_log10 pf 1e-307) = Ok (-306) ->
  Pkg._split pf 1e-307 precision = Raise OverflowError.
Proof.
  intros [H|H]; unfold Pkg._split, math_log10; cbn; rewrite H;
    vm_compute; reflexivity.
Qed.

(** ** The prefix table *)

Lemma first_with_exponent_found (table : list Pkg._SiPrefix) (e : Z) :
  In e (map Pkg.exponent table) ->
  exists p, In p table /\ Pkg.exponent p = e
            /\ Pkg.first_with_exponent table e = Ok (Pkg.short_name p).
Proof.
  induction table as [|q table IH]; simpl; [contradiction|].
  intros Hin. destruct (Z.eqb_spec e (Pkg.exponent q)) as [E|N].
  - exists q. auto.
  - destruct Hin as [E|Hin]; [congruence|].
    destruct (IH Hin) as [p [Hp [He Hf]]]. exists p. auto.
Qed.

Lemma first_with_exponent_missing (table : list Pkg._SiPrefix) (e : Z) :
  ~ In e (map Pkg.exponent table) ->
  Pkg.first_with_exponent table e = Raise ValueError.
Proof.
  induction table as [|q table IH]; simpl; [reflexivity|].
  intros Hin. destruct (Z.eqb_spec e (Pkg.exponent q)) as [E|N].
  - exfalso. apply Hin. left. congruence.
  - apply IH. intros H. apply Hin. right. exact H.
Qed.

Lemma table_exponents :
  map Pkg.exponent Pkg.SI_PREFIXES
  = [-24; -21; -18; -15; -12; -9; -6; -3; 0; 3; 6; 9; 12; 15; 18; 21; 24].
Proof. reflexivity. Qed.

Lemma in_table_spec (e : Z) :
  in_table e = true <-> In e (map Pkg.exponent Pkg.SI_PREFIXES).
Proof.
  rewrite table_exponents. unfold in_table. split.
  - intros H. apply andb_prop in H as [H H3]. apply andb_prop in H as [Hlo Hhi].
    apply Z.leb_le in Hlo, Hhi. apply Z.eqb_eq in H3.
    simpl. Z.div_mod_to_equations. lia.
  - simpl. intros H.
    repeat (destruct H as [<-|H]; [reflexivity|]). contradiction.
Qed.


Lemma prefix_outside (e : Z) :
  e < -24 \/ 26 < e -> Flat.prefix e = Raise ValueError.
Proof.
  intros H. unfold Flat.prefix.
  change ((Z.of_nat (List.length Flat.SI_PREFIX_UNITS) - 1) / 2) with 8.
  cbv zeta. destruct (Z.ltb_spec 8 (Z.abs (e / 3))) as [_|Hle]; [reflexivity|].
  exfalso. Z.div_mod_to_equations. lia.
Qed.

(** C6, as the code has it.  [_prefix] of the package is an exact-match
    lookup: it returns the symbol of the table entry with that exponent
    when the exponent is one of the 17 multiples of 3 in [-24, 24], and
    raises [ValueError] for every other integer.  [prefix] of the flat
    module floors the exponent to a multiple of 3 instead: it returns
    the character at level [e // 3] for every integer in [-24, 26], and
    raises [ValueError] only outside that range. *)
Theorem prefix_lookup (e : Z) :
  (if (-24 <=? e) && (e <=? 24) && (e mod 3 =? 0)
   then exists p, In p Pkg.SI_PREFIXES /\ Pkg.exponent p = e
                  /\ Pkg._prefix e = Ok (Pkg.short_name p)
   else Pkg._prefix e = Raise ValueError)
  /\ Flat.prefix e
     = (if (-24 <=? e) && (e <=? 26)
        then str_getitem Flat.SI_PREFIX_UNITS (e / 3 + 8)
        else Raise ValueError)
  /\ Pkg._prefix 30 = Raise ValueError
  /\ Pkg._prefix 4 = Raise ValueError
  /\ Flat.prefix 30 = Raise ValueError.
Proof.
  change ((-24 <=? e) && (e <=? 24) && (e mod 3 =? 0)) with (in_table e).
  split; [|split; [|repeat split; reflexivity]].
  - destruct (in_table e) eqn:E.
    + apply first_with_exponent_found, in_table_spec, E.
    + apply first_with_exponent_missing. rewrite <- in_table_spec. congruence.
  - destruct (Z.leb_spec (-24) e) as [Hlo|Hlo];
      [destruct (Z.leb_spec e 26) as [Hhi|Hhi]|]; simpl.
    + unfold Flat.prefix.
      change ((Z.of_nat (List.length Flat.SI_PREFIX_UNITS) - 1) / 2) with 8.
      cbv zeta. destruct (Z.ltb_spec 8 (Z.abs (e / 3))) as [Hlt|_]; [|reflexivity].
      exfalso. Z.div_mod_to_equations. lia.
    + apply prefix_outside. lia.
    + apply prefix_outside. lia.
Qed.

(** C6, as stated, fails on the flat module: [prefix(4)] returns ["k"]. *)
Lemma prefix_4_returns_k :
  Flat.prefix 4 = Ok (lit "k") /\ Flat.prefix 4 <> Raise ValueError.
Proof. split; [reflexivity|discriminate]. Qed.

(** ** Formatting *)

Lemma default_template (value_str p : str) :
  str_format (lit "{value} {prefix}")
             [(lit "value", value_str); (lit "prefix", p)]
  = Ok (value_str ++ lit " " ++ p).
Proof. unfold str_format. cbn. rewrite app_nil_r. reflexivity. Qed.


Lemma flat_default_exp_template (value_str x : str) :
  str_format Flat.default_exp_format_str
             [(lit "value", value_str); (lit "expof10", x)]
  = Ok (value_str ++ lit "e" ++ x).
Proof. unfold str_format. cbn. rewrite app_nil_r. reflexivity. Qed.

Lemma join_sign (e : Z) :
  e <> 0 ->
  join (lit "") [if 0 <? e then lit "+" else lit ""; str_of_int e]
  = signed_exponent e.
Proof.
  intros He. unfold signed_exponent, str_of_int. simpl join.
  destruct (Z.ltb_spec 0 e) as [Hp|Hn].
  - destruct (Z.ltb_spec e 0); [lia|]. rewrite Z.abs_eq by lia. reflexivity.
  - destruct (Z.ltb_spec e 0); [|lia]. rewrite Z.abs_neq by lia. reflexivity.
Qed.



(** The same fallback in [si_format] of the flat module. *)
Lemma si_format_falls_back (pf : platform) (value : float) (precision : Z)
      (format_str : str) (m : float) (e : Z) (value_str : str) :
  Flat.split pf value precision = Ok (m, e) ->
  format_f m precision = Ok value_str ->
  e < -24 \/ 24 < e ->
  Flat.si_format pf value precision format_str Flat.default_exp_format_str
  = Ok (value_str ++ lit "e" ++ signed_exponent e).
Proof.
  intros Hs Hf He. pose proof (split_exponent _ _ _ _ _ Hs) as H3.
  unfold Flat.si_format. rewrite Hs. cbn [bind]. rewrite Hf. cbn [bind].
  rewrite prefix_outside by (Z.div_mod_to_equations; lia).
  cbn [bind except_ValueError]. cbv zeta.
  rewrite join_sign by lia. apply flat_default_exp_template.
Qed.

(** The two examples of the documentation, for every C library that is
    off by less than one at [log10] and by at most one unit in the last
    place at [pow]. *)
Lemma _split_1e_27 (pf : platform) :
  py_int (c_log10 pf 1e-27) = Ok (-27) \/ py_int (c_log10 pf 1e-27) = Ok (-26) ->
  Pkg._split pf 1e-27 1 = Ok (1%float, -27).
Proof.
  intros [H|H]; unfold Pkg._split, math_log10; cbn; rewrite H;
    vm_compute; reflexivity.
Qed.

Lemma with_format_1e_27 (pf : platform) :
  py_int (c_log10 pf 1e-27) = Ok (-27) \/ py_int (c_log10 pf 1e-27) = Ok (-26) ->
  Pkg.with_format pf 1e-27 1 Pkg.default_format_str Pkg.default_exp_format_str
  = Ok (lit "1.0e-27").
Proof.
  intros H. unfold Pkg.with_format. rewrite (_split_1e_27 pf H).
  vm_compute. reflexivity.
Qed.

Lemma _split_1_55051e28 (pf : platform) :
  py_int (c_log10 pf 1.55051e+28) = Ok 28 ->
  In (c_pow pf 10 (-27)) [next_down 1e-27; 1e-27%float; next_up 1e-27] ->
  Pkg._split pf 1.55051e+28 2 = Ok (15.51%float, 27).
Proof.
  intros H Hp. unfold Pkg._split, math_log10. cbn. rewrite H. cbn [bind].
  replace (ten_pow pf _) with (Ok (PyFloat (c_pow pf 10 (-27))))
    by reflexivity.
  cbn [bind float_mul].
  destruct Hp as [<-|[<-|[<-|[]]]]; vm_compute; reflexivity.
Qed.

Lemma with_format_1_55051e28 (pf : platform) :
  py_int (c_log10 pf 1.55051e+28) = Ok 28 ->
  In (c_pow pf 10 (-27)) [next_down 1e-27; 1e-27%float; next_up 1e-27] ->
  Pkg.with_format pf 1.55051e+28 2 Pkg.default_format_str
                  Pkg.default_exp_format_str
  = Ok (lit "15.51e+27").
Proof.
  intros H Hp. unfold Pkg.with_format. rewrite (_split_1_55051e28 pf H Hp).
  vm_compute. reflexivity.
Qed.

Lemma app_space_neq (s : str) : s ++ lit " " <> s.
Proof.
  intros E. apply (f_equal (@List.length N)) in E.
  rewrite length_app in E. simpl in E. lia.
Qed.

(** C8. When the exponent of the decomposition is 0, [with_format] with
    the default template returns the value text followed by a space: the
    empty prefix is substituted after the separator of the template, and
    nothing trims the result.  So [with_format(3.93766, 2)] is ["3.94 "],
    not the ["3.94"] of the documentation. *)
Theorem with_format_exponent_0 (pf : platform) (value : float) (precision : Z)
        (exp_format_str : str) (m : float) (value_str : str) :
  Pkg._split pf value precision = Ok (m, 0) ->
  format_f m precision = Ok value_str ->
  Pkg.with_format pf value precision Pkg.default_format_str exp_format_str
  = Ok (value_str ++ lit " ")
  /\ Pkg.with_format pf value precision Pkg.default_format_str exp_format_str
     <> Ok value_str.
Proof.
  intros Hs Hf.
  assert (G : Pkg.with_format pf value precision Pkg.default_format_str
                exp_format_str = Ok (value_str ++ lit " ")).
  { unfold Pkg.with_format. rewrite Hs. cbn [bind]. rewrite Hf. cbn [bind].
    change (Pkg._prefix 0) with (@Ok str []). cbn [bind].
    change (strip []) with (@nil N). unfold Pkg.default_format_str.
    rewrite default_template. reflexivity. }
  split; [exact G|]. rewrite G. intros E. injection E as E.
  exact (app_space_neq _ E).
Qed.

Lemma with_format_exponent_0_witness :
  Pkg._split ref_platform 3.93766 2 = Ok (3.94%float, 0)
  /\ format_f 3.94 2 = Ok (lit "3.94")
  /\ Pkg.with_format ref_platform 3.93766 2 Pkg.default_format_str
                     Pkg.default_exp_format_str = Ok (lit "3.94 ").
Proof.
  assert (Hs : Pkg._split ref_platform 3.93766 2 = Ok (3.94%float, 0))
    by (vm_compute; reflexivity).
  assert (Hf : format_f 3.94 2 = Ok (lit "3.94")) by (vm_compute; reflexivity).
  split; [exact Hs|]. split; [exact Hf|].
  exact (proj1 (with_format_exponent_0 ref_platform 3.93766 2
                  Pkg.default_exp_format_str 3.94 (lit "3.94") Hs Hf)).
Defined.

(** The same in [si_format] of the flat module. *)
Lemma si_format_exponent_0 (pf : platform) (value : float) (precision : Z)
      (exp_format_str : str) (m : float) (value_str : str) :
  Flat.split pf value precision = Ok (m, 0) ->
  format_f m precision = Ok value_str ->
  Flat.si_format pf value precision Flat.default_format_str exp_format_str
  = Ok (value_str ++ lit " ").
Proof.
  intros Hs Hf. unfold Flat.si_format. rewrite Hs. cbn [bind]. rewrite Hf.
  cbn [bind]. change (Flat.prefix 0) with (Ok (lit " ")). cbn [bind].
  change (strip (lit " ")) with (@nil N). unfold Flat.default_format_str.
  rewrite default_template. reflexivity.
Qed.

(** The example of the documentation, and zero, which needs no logarithm. *)
Lemma with_format_3_93766 (pf : platform) :
  py_int (c_log10 pf 3.93766) = Ok 0 ->
  Pkg.with_format pf 3.93766 2 Pkg.default_format_str
                  Pkg.default_exp_format_str = Ok (lit "3.94 ").
Proof.
  intros H.
  assert (Hs : Pkg._split pf 3.93766 2 = Ok (3.94%float, 0)).
  { unfold Pkg._split, math_log10. cbn. rewrite H. vm_compute. reflexivity. }
  unfold Pkg.with_format. rewrite Hs. vm_compute. reflexivity.
Qed.

Lemma with_format_zero (pf : platform) :
  Pkg.with_format pf 0 1 Pkg.default_format_str Pkg.default_exp_format_str
  = Ok (lit "0.0 ").
Proof. vm_compute. reflexivity. Qed.


(** A format specification that [str] rejects, on any value. *)
Lemma invalid_spec_raises (value_str p : str) :
  str_format (lit "{value:d} {prefix}")
             [(lit "value", value_str); (lit "prefix", p)]
  = Raise ValueError.
Proof. reflexivity. Qed.


(** The same handler in [si_format]: there the fallback always renders the
    exponential template, with the exponent [0] unsigned. *)
Lemma si_format_template_error (pf : platform) (value : float)
      (precision : Z) (format_str exp_format_str : str)
      (m : float) (e : Z) (value_str symbol : str) :
  Flat.split pf value precision = Ok (m, e) ->
  format_f m precision = Ok value_str ->
  Flat.prefix e = Ok symbol ->
  str_format format_str
             [(lit "value", value_str); (lit "prefix", strip symbol)]
  = Raise ValueError ->
  Flat.si_format pf value precision format_str exp_format_str
  = str_format exp_format_str
      [(lit "value", value_str);
       (lit "expof10",
        join (lit "") [if 0 <? e then lit "+" else lit ""; str_of_int e])].
Proof.
  intros Hs Hf Hp Ht. unfold Flat.si_format. rewrite Hs. cbn [bind].
  rewrite Hf. cbn [bind]. rewrite Hp. cbn [bind]. rewrite Ht. reflexivity.
Qed.

(** ** The scale of a unit character *)

(** C10. [si_prefix_scale] returns the integer [10 ** exponent] for the
    nine characters with a non-negative exponent (1 for the space, 1000
    for [k], up to [10 ** 24] for [Y]) and raises [TypeError] for the
    eight with a negative one ([y] at [-24] up to [m] at [-3]), whose power
    is a float whatever the C library computes. *)
Theorem si_prefix_scale_by_sign (pf : platform) :
  map (fun c => (Flat.si_prefix_expof10 [c], Flat.si_prefix_scale pf [c]))
      (lit " kMGTPEZY")
  = [ (Ok 0, Ok 1); (Ok 3, Ok 1000); (Ok 6, Ok 1000000);
      (Ok 9, Ok (10 ^ 9)); (Ok 12, Ok (10 ^ 12)); (Ok 15, Ok (10 ^ 15));
      (Ok 18, Ok (10 ^ 18)); (Ok 21, Ok (10 ^ 21)); (Ok 24, Ok (10 ^ 24)) ]
  /\ map (fun c => (Flat.si_prefix_expof10 [c], Flat.si_prefix_scale pf [c]))
         (lit "yzafpn" ++ [181%N] ++ lit "m")
     = [ (Ok (-24), Raise TypeError); (Ok (-21), Raise TypeError);
         (Ok (-18), Raise TypeError); (Ok (-15), Raise TypeError);
         (Ok (-12), Raise TypeError); (Ok (-9), Raise TypeError);
         (Ok (-6), Raise TypeError); (Ok (-3), Raise TypeError) ]
  /\ Flat.SI_PREFIX_UNITS
     = (lit "yzafpn" ++ [181%N] ++ lit "m") ++ lit " kMGTPEZY".
Proof.
  split; [|split; [|reflexivity]].
  - vm_compute. reflexivity.
  - vm_compute. reflexivity.
Qed.

(** * Further properties of the code *)

(** ** Facts on binary64 comparisons *)

Lemma SFcompare_finite_refl (s : bool) (m : positive) (e : Z) :
  SFcompare (S754_finite s m e) (S754_finite s m e) = Some Eq.
Proof.
  simpl. rewrite Z.compare_refl.
  change (Pos.compare_cont Eq m m) with (Pos.compare m m).
  rewrite Pos.compare_refl. destruct s; reflexivity.
Qed.

Lemma eqb_zero_not_ltb (v : float) :
  (v =? 0)%float = true -> (v <? 0)%float = false.
Proof.
  rewrite eqb_spec, ltb_spec. change (Prim2SF 0) with (S754_zero false).
  destruct (Prim2SF v) as [s|s| |s m e]; try reflexivity; try discriminate;
    destruct s; discriminate.
Qed.

Lemma is_nan_eq (v : float) : is_nan v = true -> v = nan.
Proof.
  unfold is_nan. rewrite eqb_spec. intros H. apply Prim2SF_inj.
  change (Prim2SF nan) with S754_nan.
  destruct (Prim2SF v) as [s|s| |s m e]; try reflexivity.
  - discriminate H.
  - destruct s; discriminate H.
  - unfold SFeqb in H. rewrite SFcompare_finite_refl in H. discriminate H.
Qed.

Lemma is_infinity_eq (v : float) :
  is_infinity v = true -> v = infinity \/ v = neg_infinity.
Proof.
  unfold is_infinity. rewrite eqb_spec, abs_spec.
  change (Prim2SF infinity) with (S754_infinity false).
  destruct (Prim2SF v) as [s|s| |s m e] eqn:E; try discriminate.
  intros _. destruct s; [right|left]; apply Prim2SF_inj; rewrite E; reflexivity.
Qed.

Lemma positive_float (v : float) :
  (0 <? v)%float = true ->
  (v <? 0)%float = false /\ (v =? 0)%float = false /\ is_nan v = false.
Proof.
  unfold is_nan. rewrite !ltb_spec, !eqb_spec.
  change (Prim2SF 0) with (S754_zero false).
  destruct (Prim2SF v) as [s|s| |s m e]; try discriminate.
  - destruct s; [discriminate|]. intros _. repeat split; reflexivity.
  - destruct s; [discriminate|]. intros _.
    unfold SFeqb at 2. rewrite SFcompare_finite_refl. repeat split; reflexivity.
Qed.

(** ** The decomposition on every input *)

Lemma aligned_near (k : Z) : k - 3 <= aligned k <= k.
Proof.
  unfold aligned. destruct (Z.ltb_spec 0 k); Z.div_mod_to_equations; lia.
Qed.

Lemma zero_test (value : float) :
  negb (value <? 0)%float
  && ((if (value <? 0)%float then (- value)%float else value) =? 0)%float
  = (value =? 0)%float.
Proof.
  destruct (value =? 0)%float eqn:Hz.
  - rewrite (eqb_zero_not_ltb value Hz). cbn [negb andb]. exact Hz.
  - destruct (value <? 0)%float; cbn [negb andb]; [reflexivity|exact Hz].
Qed.

(** X1. Whenever [_split] returns, the exponent is a multiple of 3.  For a
    zero of either sign the result is [(0.0, 0)]; for every other value
    the exponent lies within 3 of [int(log10(abs(value)))]: the alignment
    lowers the integer logarithm by at most 3 and the test against one
    thousand adds 3 at most once. *)
Theorem pkg_split_exponent_near_log10 (pf : platform) (value : float)
        (precision : Z) (m : float) (e : Z) :
  Pkg._split pf value precision = Ok (m, e) ->
  e mod 3 = 0
  /\ (if (value =? 0)%float
      then m = 0%float /\ e = 0
      else exists l k,
          math_log10 pf (if (value <? 0)%float then (- value)%float else value)
          = Ok l
          /\ py_int l = Ok k /\ k - 3 <= e <= k + 3).
Proof.
  intros H. split; [exact (_split_exponent _ _ _ _ _ H)|].
  unfold Pkg._split in H. cbv zeta in H. rewrite zero_test in H.
  destruct (value =? 0)%float; [injection H as <- <-; split; reflexivity|].
  destruct (math_log10 pf _) as [l| |] eqn:Hl; cbn [bind] in H; try discriminate H.
  destruct (py_int l) as [k| |] eqn:Hk; cbn [bind] in H; try discriminate H.
  exists l, k. split; [reflexivity|]. split; [exact Hk|].
  change (if 0 <? k then k / 3 * 3 else (- k + 3) / 3 * -3)
    with (aligned k) in H.
  pose proof (aligned_near k) as Ha.
  do 2 step_bind.
  destruct (1e3 <=? x0)%float; do 2 step_bind; injection H as _ <-; lia.
Qed.

Lemma pkg_split_exponent_near_log10_witness :
  Pkg._split ref_platform 4781.123 2 = Ok (4.78%float, 3)
  /\ 3 mod 3 = 0
  /\ exists l k, math_log10 ref_platform 4781.123 = Ok l
                 /\ py_int l = Ok k /\ k - 3 <= 3 <= k + 3.
Proof.
  assert (H : Pkg._split ref_platform 4781.123 2 = Ok (4.78%float, 3))
    by (vm_compute; reflexivity).
  split; [exact H|].
  exact (pkg_split_exponent_near_log10 ref_platform 4781.123 2 4.78 3 H).
Defined.

(** X2. The same for [split] of the flat module: a multiple of 3,
    [(0.0, 0)] for a zero of either sign, and within 3 of the integer
    logarithm for every other value. *)
Theorem flat_split_exponent_near_log10 (pf : platform) (value : float)
        (precision : Z) (m : float) (e : Z) :
  Flat.split pf value precision = Ok (m, e) ->
  e mod 3 = 0
  /\ (if (value =? 0)%float
      then m = 0%float /\ e = 0
      else exists l k,
          math_log10 pf (if (value <? 0)%float then (- value)%float else value)
          = Ok l
          /\ py_int l = Ok k /\ k - 3 <= e <= k + 3).
Proof.
  intros H. split; [exact (split_exponent _ _ _ _ _ H)|].
  unfold Flat.split in H. cbv zeta in H. rewrite zero_test in H.
  destruct (value =? 0)%float; [injection H as <- <-; split; reflexivity|].
  destruct (math_log10 pf _) as [l| |] eqn:Hl; cbn [bind] in H; try discriminate H.
  destruct (py_int l) as [k| |] eqn:Hk; cbn [bind] in H; try discriminate H.
  exists l, k. split; [reflexivity|]. split; [exact Hk|].
  change (if 0 <? k then k / 3 * 3 else (- k + 3) / 3 * -3)
    with (aligned k) in H.
  pose proof (aligned_near k) as Ha.
  do 2 step_bind.
  destruct (1e3 <=? x0)%float;
    [|destruct (100 <=? x0)%float; [|destruct (10 <=? x0)%float]];
    step_bind; injection H as _ <-; lia.
Qed.

Lemma flat_split_exponent_near_log10_witness :
  Flat.split ref_platform 291733 2 = Ok (291.733%float, 3)
  /\ 3 mod 3 = 0
  /\ exists l k, math_log10 ref_platform 291733 = Ok l
                 /\ py_int l = Ok k /\ k - 3 <= 3 <= k + 3.
Proof.
  assert (H : Flat.split ref_platform 291733 2 = Ok (291.733%float, 3))
    by (vm_compute; reflexivity).
  split; [exact H|].
  exact (flat_split_exponent_near_log10 ref_platform 291733 2 291.733 3 H).
Defined.

(** X3. Both decompositions return [(0.0, 0)] for a zero of either sign,
    at every precision and without calling the C library: the mantissa of
    [-0.0] is the positive zero. *)
Theorem split_of_zero (pf : platform) (value : float) (precision : Z) :
  (value =? 0)%float = true ->
  Pkg._split pf value precision = Ok (0%float, 0)
  /\ Flat.split pf value precision = Ok (0%float, 0).
Proof.
  intros H. unfold Pkg._split, Flat.split.
  rewrite (eqb_zero_not_ltb value H). cbv zeta iota. rewrite H.
  split; reflexivity.
Qed.

Lemma split_of_zero_witness :
  ((-0) =? 0)%float = true
  /\ Pkg._split ref_platform (-0) 5 = Ok (0%float, 0).
Proof.
  split; [reflexivity|].
  exact (proj1 (split_of_zero ref_platform (-0) 5 eq_refl)).
Defined.

(** X4. A value that is not finite never formats: both formatters raise
    [ValueError] for a NaN ([int] of the NaN logarithm) and
    [OverflowError] for an infinity of either sign ([int] of the infinite
    logarithm), whatever the precision and the templates. *)
Theorem format_of_non_finite (pf : platform) (value : float) (precision : Z)
        (format_str exp_format_str : str) :
  is_finite value = false ->
  let raised := Raise (if is_nan value then ValueError else OverflowError) in
  Pkg.with_format pf value precision format_str exp_format_str = raised
  /\ Flat.si_format pf value precision format_str exp_format_str = raised.
Proof.
  unfold is_finite. intros H. apply negb_false_iff, orb_true_iff in H.
  destruct H as [H|H].
  - apply is_nan_eq in H. subst value. split; vm_compute; reflexivity.
  - apply is_infinity_eq in H. destruct H; subst value; split;
      vm_compute; reflexivity.
Qed.

Lemma format_of_non_finite_witness :
  is_finite neg_infinity = false
  /\ Pkg.with_format ref_platform neg_infinity 1 Pkg.default_format_str
                     Pkg.default_exp_format_str = Raise OverflowError.
Proof.
  split; [reflexivity|].
  exact (proj1 (format_of_non_finite ref_platform neg_infinity 1
                  Pkg.default_format_str Pkg.default_exp_format_str eq_refl)).
Defined.

(** X5. A positive finite value so small that the integer logarithm is
    [-306] or below makes [_split] raise [OverflowError]: the scale is the
    [int] [10 ** 309] or more, which the float multiplication cannot
    convert.  (Every double has an integer logarithm above [-325].) *)
Theorem pkg_split_overflows_when_tiny (pf : platform) (value : float)
        (precision k : Z) :
  (0 <? value)%float = true ->
  is_infinity value = false ->
  py_int (c_log10 pf value) = Ok k ->
  -324 <= k <= -306 ->
  Pkg._split pf value precision = Raise OverflowError.
Proof.
  intros Hpos Hinf Hk Hr.
  destruct (positive_float value Hpos) as [Hlt [Heq Hnan]].
  unfold Pkg._split, math_log10.
  rewrite Hlt. cbv zeta iota. rewrite Heq, Hnan, Hpos, Hinf. cbn [negb andb bind].
  rewrite Hk. cbn [bind].
  change (if 0 <? k then k / 3 * 3 else (- k + 3) / 3 * -3) with (aligned k).
  assert (Ha : In (aligned k) [-309; -312; -315; -318; -321; -324; -327]).
  { unfold aligned. destruct (Z.ltb_spec 0 k); [lia|]. simpl.
    Z.div_mod_to_equations. lia. }
  simpl in Ha.
  repeat (destruct Ha as [<-|Ha]; [vm_compute; reflexivity|]).
  contradiction.
Qed.

Lemma pkg_split_overflows_when_tiny_witness :
  (0 <? 1e-307)%float = true
  /\ py_int (c_log10 ref_platform 1e-307) = Ok (-307)
  /\ Pkg._split ref_platform 1e-307 1 = Raise OverflowError.
Proof.
  assert (Hk : py_int (c_log10 ref_platform 1e-307) = Ok (-307))
    by (vm_compute; reflexivity).
  assert (Hr : -324 <= -307 <= -306) by lia.
  split; [reflexivity|]. split; [exact Hk|].
  exact (pkg_split_overflows_when_tiny ref_platform 1e-307 1 (-307)
           eq_refl eq_refl Hk Hr).
Defined.

(** ** The formatters *)

(** X6. With a negative precision neither formatter returns a text:
    [round] accepts the precision, so the decomposition may succeed, but
    the fixed-point rendering then raises [ValueError] outside the guarded
    expression, whatever the templates. *)
Theorem negative_precision_never_formats (pf : platform) (value : float)
        (precision : Z) (format_str exp_format_str : str) :
  precision < 0 ->
  (forall s, Pkg.with_format pf value precision format_str exp_format_str
             <> Ok s)
  /\ (forall s, Flat.si_format pf value precision format_str exp_format_str
                <> Ok s)
  /\ (forall m e, Pkg._split pf value precision = Ok (m, e) ->
                  Pkg.with_format pf value precision format_str exp_format_str
                  = Raise ValueError).
Proof.
  intros Hp.
  assert (Hf : forall m, format_f m precision = Raise ValueError).
  { intros m. unfold format_f. destruct (Z.ltb_spec precision 0); [reflexivity|lia]. }
  split; [|split].
  - intros s. unfold Pkg.with_format.
    destruct (Pkg._split pf value precision) as [[m e]| |]; cbn [bind];
      try discriminate. rewrite Hf. discriminate.
  - intros s. unfold Flat.si_format.
    destruct (Flat.split pf value precision) as [[m e]| |]; cbn [bind];
      try discriminate. rewrite Hf. discriminate.
  - intros m e Hs. unfold Pkg.with_format. rewrite Hs. cbn [bind].
    rewrite Hf. reflexivity.
Qed.

Lemma negative_precision_never_formats_witness :
  -1 < 0
  /\ Pkg._split ref_platform 4781.123 (-1) = Ok (0%float, 3)
  /\ Pkg.with_format ref_platform 4781.123 (-1) Pkg.default_format_str
                     Pkg.default_exp_format_str = Raise ValueError.
Proof.
  assert (Hp : -1 < 0) by lia.
  assert (Hs : Pkg._split ref_platform 4781.123 (-1) = Ok (0%float, 3))
    by (vm_compute; reflexivity).
  split; [exact Hp|]. split; [exact Hs|].
  exact (proj2 (proj2 (negative_precision_never_formats ref_platform 4781.123
                         (-1) Pkg.default_format_str
                         Pkg.default_exp_format_str Hp)) 0%float 3 Hs).
Defined.

Lemma in_table_cases (e : Z) :
  -24 <= e <= 24 -> e mod 3 = 0 ->
  In e [-24; -21; -18; -15; -12; -9; -6; -3; 0; 3; 6; 9; 12; 15; 18; 21; 24].
Proof. intros Hr H3. simpl. Z.div_mod_to_equations. lia. Qed.

(** X7. On the primary path, with the default template, [with_format]
    returns the value text, one space, and the symbol of the table entry
    of the exponent; the symbol is empty exactly for the exponent 0 and
    one character otherwise.  The precondition on the exponent is the
    range of the table: a decomposed exponent is always a multiple of 3. *)
Theorem with_format_primary_text (pf : platform) (value : float)
        (precision : Z) (exp_format_str : str) (m : float) (e : Z)
        (value_str : str) :
  Pkg._split pf value precision = Ok (m, e) ->
  format_f m precision = Ok value_str ->
  -24 <= e <= 24 ->
  exists p, In p Pkg.SI_PREFIXES /\ Pkg.exponent p = e
            /\ Pkg.with_format pf value precision Pkg.default_format_str
                               exp_format_str
               = Ok (value_str ++ lit " " ++ Pkg.short_name p)
            /\ List.length (Pkg.short_name p) = if e =? 0 then 0%nat else 1%nat.
Proof.
  intros Hs Hf Hr.
  pose proof (in_table_cases e Hr (_split_exponent _ _ _ _ _ Hs)) as Hin.
  assert (Hin' : In e (map Pkg.exponent Pkg.SI_PREFIXES))
    by (rewrite table_exponents; exact Hin).
  destruct (first_with_exponent_found _ _ Hin') as [p [Hp [He Hl]]].
  exists p. split; [exact Hp|]. split; [exact He|].
  assert (Hstrip : strip (Pkg.short_name p) = Pkg.short_name p
                   /\ List.length (Pkg.short_name p)
                      = if Pkg.exponent p =? 0 then 0%nat else 1%nat).
  { clear - Hp. simpl in Hp.
    repeat (destruct Hp as [<-|Hp]; [split; reflexivity|]). contradiction. }
  destruct Hstrip as [Hst Hlen]. rewrite He in Hlen. split; [|exact Hlen].
  unfold Pkg.with_format. rewrite Hs. cbn [bind]. rewrite Hf. cbn [bind].
  unfold Pkg._prefix. rewrite Hl. cbn [bind]. rewrite Hst.
  unfold Pkg.default_format_str. rewrite default_template. reflexivity.
Qed.

Lemma with_format_primary_text_witness :
  Pkg._split ref_platform 0.04781 2 = Ok (47.81%float, -3)
  /\ format_f 47.81 2 = Ok (lit "47.81")
  /\ exists p, In p Pkg.SI_PREFIXES /\ Pkg.exponent p = -3
               /\ Pkg.with_format ref_platform 0.04781 2 Pkg.default_format_str
                                  Pkg.default_exp_format_str
                  = Ok (lit "47.81" ++ lit " " ++ Pkg.short_name p)
               /\ List.length (Pkg.short_name p) = 1%nat.
Proof.
  assert (Hs : Pkg._split ref_platform 0.04781 2 = Ok (47.81%float, -3))
    by (vm_compute; reflexivity).
  assert (Hf : format_f 47.81 2 = Ok (lit "47.81")) by (vm_compute; reflexivity).
  assert (Hr : -24 <= -3 <= 24) by lia.
  split; [exact Hs|]. split; [exact Hf|].
  exact (with_format_primary_text ref_platform 0.04781 2
           Pkg.default_exp_format_str 47.81 (-3) (lit "47.81") Hs Hf Hr).
Defined.

(** X8. With its default templates [si_format] is decided by the
    decomposition alone: inside the range of the table the text is the
    value, one space, and the character of the exponent with the space of
    level 0 stripped; outside it is the value, [e], and the signed
    exponent. *)
Theorem si_format_default_text (pf : platform) (value : float)
        (precision : Z) (m : float) (e : Z) (value_str : str) :
  Flat.split pf value precision = Ok (m, e) ->
  format_f m precision = Ok value_str ->
  Flat.si_format pf value precision Flat.default_format_str
                 Flat.default_exp_format_str
  = (if (-24 <=? e) && (e <=? 24)
     then c <- str_getitem Flat.SI_PREFIX_UNITS (e / 3 + 8) ;;
          Ok (value_str ++ lit " " ++ (if e =? 0 then [] else c))
     else Ok (value_str ++ lit "e"
              ++ (if 0 <? e then lit "+" else lit "-")
              ++ str_of_nonneg (Z.abs e))).
Proof.
  intros Hs Hf. pose proof (split_exponent _ _ _ _ _ Hs) as H3.
  destruct (Z.leb_spec (-24) e) as [Hlo|Hlo];
    [destruct (Z.leb_spec e 24) as [Hhi|Hhi]|]; cbn [andb].
  - pose proof (in_table_cases e (conj Hlo Hhi) H3) as Hin.
    unfold Flat.si_format. rewrite Hs. cbn [bind]. rewrite Hf. cbn [bind].
    simpl in Hin.
    repeat (destruct Hin as [<-|Hin];
            [unfold Flat.default_format_str;
             match goal with
             | |- context [Flat.prefix ?n] =>
                 let r := eval vm_compute in (Flat.prefix n) in
                 change (Flat.prefix n) with r
             end;
             cbn [bind];
             match goal with
             | |- context [strip ?c] =>
                 let r := eval vm_compute in (strip c) in
                 change (strip c) with r
             end;
             rewrite default_template; reflexivity|]).
    contradiction.
  - change ((if 0 <? e then lit "+" else lit "-") ++ str_of_nonneg (Z.abs e))
      with (signed_exponent e).
    apply (si_format_falls_back pf value precision _ m e value_str Hs Hf). lia.
  - change ((if 0 <? e then lit "+" else lit "-") ++ str_of_nonneg (Z.abs e))
      with (signed_exponent e).
    apply (si_format_falls_back pf value precision _ m e value_str Hs Hf). lia.
Qed.

Lemma si_format_default_text_witness :
  Flat.split ref_platform 291733 2 = Ok (291.733%float, 3)
  /\ format_f 291.733 2 = Ok (lit "291.73")
  /\ Flat.si_format ref_platform 291733 2 Flat.default_format_str
                    Flat.default_exp_format_str = Ok (lit "291.73 k").
Proof.
  assert (Hs : Flat.split ref_platform 291733 2 = Ok (291.733%float, 3))
    by (vm_compute; reflexivity).
  assert (Hf : format_f 291.733 2 = Ok (lit "291.73"))
    by (vm_compute; reflexivity).
  split; [exact Hs|]. split; [exact Hf|].
  exact (si_format_default_text ref_platform 291733 2 291.733 3
           (lit "291.73") Hs Hf).
Defined.

(** ** The prefix tables *)

Lemma find_from_lower (sub s : str) (i j : Z) :
  find_from sub s i = Some j -> i <= j.
Proof.
  revert i. induction s as [|a s IH]; intros i; simpl.
  - destruct (startswith sub []); [|discriminate]. intros [= <-]. lia.
  - destruct (startswith sub (a :: s)); [intros [= <-]; lia|].
    intros H. apply IH in H. lia.
Qed.

Lemma find_from_upper (c : N) (sub s : str) (i j : Z) :
  find_from (c :: sub) s i = Some j -> j < i + Z.of_nat (List.length s).
Proof.
  revert i. induction s as [|a s IH]; intros i.
  - simpl. discriminate.
  - cbn [find_from]. destruct (startswith (c :: sub) (a :: s)).
    + intros [= <-]. cbn [List.length]. lia.
    + intros H. apply IH in H. cbn [List.length]. lia.
Qed.

Lemma si_prefix_expof10_range (s : str) (e : Z) :
  Flat.si_prefix_expof10 s = Ok e -> -24 <= e <= 24 /\ e mod 3 = 0.
Proof.
  unfold Flat.si_prefix_expof10, index.
  change ((Z.of_nat (List.length Flat.SI_PREFIX_UNITS) - 1) / 2) with 8.
  cbv zeta.
  destruct (find_from s Flat.SI_PREFIX_UNITS 0) as [i|] eqn:Hi;
    unfold bind; [|discriminate].
  intros H. assert (He : e = 3 * (i - 8)) by congruence. subst e. clear H.
  pose proof (find_from_lower _ _ _ _ Hi) as Hlo.
  assert (Hhi : i <= 16).
  { destruct s as [|c sub].
    - simpl in Hi. injection Hi as <-. lia.
    - apply find_from_upper in Hi.
      change (Z.of_nat (List.length Flat.SI_PREFIX_UNITS)) with 17 in Hi. lia. }
  split; [lia|]. rewrite Z.mul_comm. apply Z_mod_mult.
Qed.

(** X9. From an exponent to its character and back: for every integer in
    [-24, 26], [prefix] returns one character, and [si_prefix_expof10] of
    that character is the exponent floored to a multiple of 3 (the
    exponent itself when it is a multiple of 3). *)
Theorem prefix_then_expof10 (e : Z) :
  -24 <= e <= 26 ->
  exists c, Flat.prefix e = Ok [c]
            /\ Flat.si_prefix_expof10 [c] = Ok (3 * (e / 3)).
Proof.
  intros Hr. unfold Flat.prefix.
  change ((Z.of_nat (List.length Flat.SI_PREFIX_UNITS) - 1) / 2) with 8.
  cbv zeta.
  assert (Hq : In (e / 3) [-8; -7; -6; -5; -4; -3; -2; -1; 0; 1; 2; 3; 4; 5; 6; 7; 8])
    by (simpl; Z.div_mod_to_equations; lia).
  simpl in Hq.
  repeat (destruct Hq as [<-|Hq]; [eexists; split; reflexivity|]).
  contradiction.
Qed.

Lemma prefix_then_expof10_witness :
  -24 <= 4 <= 26
  /\ exists c, Flat.prefix 4 = Ok [c] /\ Flat.si_prefix_expof10 [c] = Ok 3.
Proof.
  assert (Hr : -24 <= 4 <= 26) by lia.
  split; [exact Hr|]. exact (prefix_then_expof10 4 Hr).
Defined.

Lemma find_from_absent (c : N) (s : str) (i : Z) :
  existsb (N.eqb c) s = false -> find_from [c] s i = None.
Proof.
  revert i. induction s as [|a s IH]; intros i; simpl; [reflexivity|].
  intros H. apply orb_false_iff in H as [Ha Hs].
  rewrite Ha. simpl. apply IH, Hs.
Qed.

(** X10. From a character to its exponent and back: for each of the 17
    characters of [SI_PREFIX_UNITS], [si_prefix_expof10] returns a multiple
    of 3 in [-24, 24] whose [prefix] is that character; for any other
    character it raises [ValueError]. *)
Theorem expof10_then_prefix (c : N) :
  if one_of Flat.SI_PREFIX_UNITS c
  then exists e, Flat.si_prefix_expof10 [c] = Ok e
                 /\ -24 <= e <= 24 /\ e mod 3 = 0
                 /\ Flat.prefix e = Ok [c]
  else Flat.si_prefix_expof10 [c] = Raise ValueError.
Proof.
  destruct (one_of Flat.SI_PREFIX_UNITS c) eqn:E.
  - unfold one_of in E. apply existsb_exists in E as [x [Hin Hx]].
    apply N.eqb_eq in Hx. subst x. simpl in Hin.
    repeat (destruct Hin as [<-|Hin];
            [eexists; split; [reflexivity|];
             split; [vm_compute; split; discriminate|];
             split; reflexivity|]).
    contradiction.
  - unfold Flat.si_prefix_expof10, index.
    rewrite (find_from_absent c _ 0 E). reflexivity.
Qed.



(** X12. On every string [si_prefix_scale] is decided by
    [si_prefix_expof10]: it raises what that raises, returns the [int]
    [10 ** e] for an exponent [e >= 0] and raises [TypeError] for a
    negative one, for every C library.  So a returned scale is a power of
    1000 from 1 to [10 ** 24]. *)
Theorem si_prefix_scale_any_string (pf : platform) (si_unit : str) :
  Flat.si_prefix_scale pf si_unit
  = (e <- Flat.si_prefix_expof10 si_unit ;;
     if 0 <=? e then Ok (10 ^ e) else Raise TypeError).
Proof.
  unfold Flat.si_prefix_scale.
  destruct (Flat.si_prefix_expof10 si_unit) as [e| |] eqn:He; cbn [bind];
    try reflexivity.
  destruct (si_prefix_expof10_range _ _ He) as [Hr H3].
  unfold ten_pow. destruct (Z.leb_spec 0 e) as [Hp|Hn]; [reflexivity|].
  assert (Hin : In e [-24; -21; -18; -15; -12; -9; -6; -3])
    by (simpl; Z.div_mod_to_equations; lia).
  simpl in Hin.
  repeat (destruct Hin as [<-|Hin]; [reflexivity|]). contradiction.
Qed.

(** X13. The two modules agree on the table: for each of the 17 exponents
    the symbol [_prefix] returns is the character [prefix] returns, with
    the space of exponent 0 stripped to the empty symbol. *)
Theorem prefix_tables_agree (e : Z) :
  (-24 <=? e) && (e <=? 24) && (e mod 3 =? 0) = true ->
  exists c, Flat.prefix e = Ok c /\ Pkg._prefix e = Ok (strip c).
Proof.
  change ((-24 <=? e) && (e <=? 24) && (e mod 3 =? 0)) with (in_table e).
  intros H. apply in_table_spec in H. rewrite table_exponents in H.
  simpl in H.
  repeat (destruct H as [<-|H]; [eexists; split; reflexivity|]).
  contradiction.
Qed.

Lemma prefix_tables_agree_witness :
  exists c, Flat.prefix 0 = Ok c /\ Pkg._prefix 0 = Ok (strip c).
Proof. exact (prefix_tables_agree 0 eq_refl). Defined.

(** X14. The table of the package is a one-to-one correspondence: its
    symbols are pairwise distinct, its exponents are pairwise distinct,
    and looking up the exponent of any entry returns that entry's own
    symbol. *)
Theorem table_is_one_to_one :
  NoDup (map Pkg.short_name Pkg.SI_PREFIXES)
  /\ NoDup (map Pkg.exponent Pkg.SI_PREFIXES)
  /\ Forall (fun p => Pkg._prefix (Pkg.exponent p) = Ok (Pkg.short_name p))
            Pkg.SI_PREFIXES.
Proof.
  split; [|split].
  - simpl. repeat (apply NoDup_cons; [simpl; intuition discriminate|]).
    apply NoDup_nil.
  - simpl. repeat (apply NoDup_cons; [simpl; intuition discriminate|]).
    apply NoDup_nil.
  - repeat apply Forall_cons; try apply Forall_nil; reflexivity.
Qed.

(** ** [si_parse] and its patterns *)

Lemma star_result {R} (p : N -> bool) (s : str) (k : str -> option R) (r : R) :
  star p s k = Some r -> exists s', k s' = Some r.
Proof.
  induction s as [|c s IH]; simpl.
  - intros H. exists []. exact H.
  - destruct (p c).
    + destruct (star p s k) as [r'|] eqn:E.
      * intros [= <-]. apply IH. reflexivity.
      * intros H. exists (c :: s). exact H.
    + intros H. exists (c :: s). exact H.
Qed.

Lemma star_takes_all {R} (p : N -> bool) (s : str) (k : str -> option R) (r : R) :
  forallb p s = true -> k [] = Some r -> star p s k = Some r.
Proof.
  intros Hs Hk. induction s as [|c s IH]; simpl; [exact Hk|].
  simpl in Hs. apply andb_prop in Hs as [Hc Hs].
  rewrite Hc, (IH Hs). reflexivity.
Qed.

(** Every match of a pattern is an answer of its continuation, reached
    with captures that extend the given ones by groups of the pattern. *)
Lemma exec_inv (I P : captures -> Prop) (r : regex) :
  (forall n v c, In n (group_names r) -> I c -> I ((n, v) :: c)) ->
  forall len s caps k m,
    I caps ->
    (forall s' c', I c' -> k s' c' = Some m -> P m) ->
    exec r len s caps k = Some m -> P m.
Proof.
  induction r as [|p|p|p|r IH|a IHa b IHb|name r IH| |];
    intros Hcl len s caps k m Hi Hk; simpl.
  - apply Hk, Hi.
  - destruct s as [|c s']; [discriminate|].
    destruct (p c); [apply Hk, Hi|discriminate].
  - intros H. apply star_result in H as [s' H]. exact (Hk s' caps Hi H).
  - destruct s as [|c s']; [discriminate|].
    destruct (p c); [|discriminate].
    intros H. apply star_result in H as [s'' H]. exact (Hk s'' caps Hi H).
  - destruct (exec r len s caps k) as [m'|] eqn:E.
    + intros [= <-]. exact (IH Hcl len s caps k m' Hi Hk E).
    + apply Hk, Hi.
  - apply IHa; [|exact Hi|].
    + intros n v c Hn. apply Hcl. simpl. apply in_or_app. left. exact Hn.
    + intros s' c' Hi'. apply IHb; [|exact Hi'|exact Hk].
      intros n v c Hn. apply Hcl. simpl. apply in_or_app. right. exact Hn.
  - apply IH; [|exact Hi|].
    + intros n v c Hn. apply Hcl. simpl. right. exact Hn.
    + intros s' c' Hi'. apply Hk. apply Hcl; [simpl; left; reflexivity|exact Hi'].
  - destruct (Nat.eqb _ _); [apply Hk, Hi|discriminate].
  - destruct s as [|c [|d s']]; [apply Hk, Hi| |discriminate].
    destruct (c =? 10)%N; [apply Hk, Hi|discriminate].
Qed.

(** X15. Whenever [si_parse] returns, it returns [float(value)]: no SI
    prefix is ever applied, because the only branch that returns is the
    one for plain decimal notation. *)
Theorem si_parse_returns_float (pf : platform) (value : str) (x : float) :
  Flat.si_parse pf value = Ok x -> float_of_str pf value = Ok x.
Proof.
  intros H.
  destruct (re_match (Flat.cre_10e_number pf) value) as [m|] eqn:Hm.
  - unfold Flat.si_parse in H. rewrite Hm in H.
    destruct (_ && _); [discriminate H|exact H].
  - destruct (si_parse_prefixed_raises pf value Hm) as [e He].
    rewrite He in H. discriminate H.
Qed.

Lemma si_parse_returns_float_witness :
  Flat.si_parse ref_platform (lit "-4.78e3") = Ok (-4780)%float
  /\ float_of_str ref_platform (lit "-4.78e3") = Ok (-4780)%float.
Proof.
  assert (H : Flat.si_parse ref_platform (lit "-4.78e3") = Ok (-4780)%float)
    by (vm_compute; reflexivity).
  split; [exact H|].
  exact (si_parse_returns_float ref_platform (lit "-4.78e3") (-4780) H).
Defined.

(** X16. On the empty string and on a string of white space only,
    [si_parse] raises [ValueError]: the first pattern matches with neither
    digit group, which is the "No number found" branch. *)
Theorem si_parse_blank_raises (pf : platform) (value : str) :
  forallb is_space value = true ->
  Flat.si_parse pf value = Raise ValueError.
Proof.
  intros Hs.
  assert (Hm : re_match (Flat.cre_10e_number pf) value = Some []).
  { unfold re_match, Flat.cre_10e_number, cat. cbn [fold_right].
    cbn [exec]. rewrite Nat.eqb_refl.
    apply star_takes_all; [exact Hs|reflexivity]. }
  unfold Flat.si_parse. rewrite Hm. reflexivity.
Qed.

Lemma si_parse_blank_raises_witness :
  forallb is_space (lit "  ") = true
  /\ Flat.si_parse ref_platform (lit "  ") = Raise ValueError.
Proof.
  split; [reflexivity|].
  exact (si_parse_blank_raises ref_platform (lit "  ") eq_refl).
Defined.

Lemma exec_group_inv (I J P : captures -> Prop) (name : string) (r : regex) :
  (forall n v c, In n (group_names r) -> I c -> I ((n, v) :: c)) ->
  (forall v c, I c -> J ((name, v) :: c)) ->
  forall len s caps k m,
    I caps ->
    (forall s' c', J c' -> k s' c' = Some m -> P m) ->
    exec (Group name r) len s caps k = Some m -> P m.
Proof.
  intros Hcl Hj len s caps k m Hi Hk. cbn [exec].
  apply (exec_inv I P r Hcl); [exact Hi|].
  intros s' c' Hi'. apply Hk, Hj, Hi'.
Qed.

Lemma CRE_SI_NUMBER_captures (pf : platform) (s : str) (m : captures) :
  re_match (Flat.CRE_SI_NUMBER pf) s = Some m -> has_integer m /\ unit_ok m.
Proof.
  unfold re_match, Flat.CRE_SI_NUMBER, cat. cbn [fold_right].
  set (Q := fun c => has_integer c /\ unit_ok c).
  set (I1 := fun c => no_unit c /\ has_integer c).
  change (has_integer m /\ unit_ok m) with (Q m).
  generalize (List.length s) as len. intros len.
  (* leading white space *)
  cbn [exec]. fold exec.
  intros H. apply star_result in H as [s1 H]. revert H.
  (* the sign *)
  change (exec (Opt (Group "sign" (Class (one_of (lit "+-"))))) len s1 []
            (fun s' caps' =>
               exec (Seq (Group "integer" (Plus (re_digit pf)))
                      (cat [Opt (Group "fraction"
                                   (Seq (Class re_any) (Plus (re_digit pf))));
                            Star re_space;
                            Opt (Group "si_unit"
                                   (Class (one_of Flat.SI_PREFIX_UNITS)));
                            Star re_space])) len s' caps'
                    (fun _ caps => Some caps)) = Some m -> Q m).
  apply (exec_inv no_unit Q); [|reflexivity|].
  { intros n v c [<-|[]] Hc. exact Hc. }
  intros s2 c2 Hc2. cbn [exec]. fold exec.
  (* the integer part *)
  change (exec (Group "integer" (Plus (re_digit pf))) len s2 c2
            (fun s' caps' =>
               exec (cat [Opt (Group "fraction"
                                 (Seq (Class re_any) (Plus (re_digit pf))));
                          Star re_space;
                          Opt (Group "si_unit"
                                 (Class (one_of Flat.SI_PREFIX_UNITS)));
                          Star re_space]) len s' caps'
                    (fun _ caps => Some caps)) = Some m -> Q m).
  apply (exec_group_inv no_unit I1 Q); [| |exact Hc2|].
  { intros n v c []. }
  { intros v c Hc. split; [exact Hc|]. exists v. reflexivity. }
  intros s3 c3 Hc3. unfold cat. cbn [fold_right].
  (* the fraction *)
  change (exec (Opt (Group "fraction" (Seq (Class re_any) (Plus (re_digit pf)))))
            len s3 c3
            (fun s' caps' =>
               exec (Seq (Star re_space)
                      (Seq (Opt (Group "si_unit"
                                   (Class (one_of Flat.SI_PREFIX_UNITS))))
                         (Seq (Star re_space) Empty))) len s' caps'
                    (fun _ caps => Some caps)) = Some m -> Q m).
  apply (exec_inv I1 Q); [|exact Hc3|].
  { intros n v c [<-|[]] Hc. exact Hc. }
  intros s4 c4 [Hnu [w Hw]]. cbn [exec].
  (* white space, the unit, white space *)
  intros H. apply star_result in H as [s5 H].
  assert (Hq : Q c4).
  { split; [exists w; exact Hw|left; exact Hnu]. }
  assert (Hend : forall t, star re_space t (fun _ => Some c4) = Some m -> Q m).
  { intros t Ht. apply star_result in Ht as [t' Ht]. injection Ht as <-. exact Hq. }
  destruct s5 as [|c s6]; [exact (Hend _ H)|].
  destruct (one_of Flat.SI_PREFIX_UNITS c) eqn:Hu; [|exact (Hend _ H)].
  destruct (star re_space s6 _) as [m'|] eqn:E; [|exact (Hend _ H)].
  injection H as <-. apply star_result in E as [t E]. injection E as <-.
  match goal with
  | |- context [firstn ?n (c :: s6)] =>
      replace n with 1%nat by (destruct (List.length s6); lia)
  end.
  split.
  - exists w. exact Hw.
  - right. exists c. split; [reflexivity|exact Hu].
Qed.

Lemma index_of_unit (ch : N) :
  one_of Flat.SI_PREFIX_UNITS ch = true ->
  exists i, index Flat.SI_PREFIX_UNITS [ch] = Ok i /\ 0 <= i <= 16.
Proof.
  unfold one_of. intros H. apply existsb_exists in H as [x [Hin Hx]].
  apply N.eqb_eq in Hx. subst x. simpl in Hin.
  repeat (destruct Hin as [<-|Hin];
          [eexists; split; [reflexivity|lia]|]).
  contradiction.
Qed.

Lemma ten_pow_of_level (pf : platform) (i : Z) :
  0 <= i <= 16 -> exists x, ten_pow pf (3 * (i - 8)) = Ok x.
Proof.
  intros Hi.
  assert (Hin : In i [0; 1; 2; 3; 4; 5; 6; 7; 8; 9; 10; 11; 12; 13; 14; 15; 16])
    by (simpl; lia).
  simpl in Hin.
  repeat (destruct Hin as [<-|Hin]; [eexists; reflexivity|]).
  contradiction.
Qed.

(** X17. On a string that is not plain decimal notation [si_parse] never
    returns and raises one of two exceptions only: [ValueError] when the
    string does not start (after white space and a sign) with a digit,
    and [KeyError] otherwise, from the missing group [number].  The
    "No number found" test of that branch, the lookup of the unit and the
    computation of the scale never raise. *)
Theorem si_parse_prefixed_errors (pf : platform) (value : str) :
  re_match (Flat.cre_10e_number pf) value = None ->
  Flat.si_parse pf value
  = match re_match (Flat.CRE_SI_NUMBER pf) value with
    | None => Raise ValueError
    | Some _ => Raise KeyError
    end.
Proof.
  intros H. unfold Flat.si_parse. rewrite H.
  destruct (re_match (Flat.CRE_SI_NUMBER pf) value) as [m|] eqn:Hm;
    [|reflexivity].
  destruct (CRE_SI_NUMBER_captures pf value m Hm) as [[w Hw] Hu].
  rewrite Hw. cbn [Flat.is_None andb].
  change (groupdict (Flat.CRE_SI_NUMBER pf) m)
    with [("sign"%string, group m "sign"); ("integer"%string, group m "integer");
          ("fraction"%string, group m "fraction");
          ("si_unit"%string, group m "si_unit")].
  cbn [getitem String.eqb Ascii.eqb Bool.eqb bind].
  assert (Hi : exists i,
             index Flat.SI_PREFIX_UNITS
                   match group m "si_unit" with
                   | Some ((_ :: _) as unit) => unit
                   | _ => lit " "
                   end = Ok i /\ 0 <= i <= 16).
  { destruct Hu as [->|[ch [-> Hch]]].
    - exists 8. split; [reflexivity|lia].
    - apply index_of_unit, Hch. }
  destruct Hi as [i [-> Hi]]. cbn [bind].
  change ((Z.of_nat (List.length Flat.SI_PREFIX_UNITS) - 1) / 2) with 8.
  destruct (ten_pow_of_level pf i Hi) as [x ->]. reflexivity.
Qed.

Lemma si_parse_prefixed_errors_witness :
  re_match (Flat.cre_10e_number ref_platform) (lit "4.78 k") = None
  /\ Flat.si_parse ref_platform (lit "4.78 k") = Raise KeyError.
Proof.
  assert (H : re_match (Flat.cre_10e_number ref_platform) (lit "4.78 k") = None)
    by reflexivity.
  split; [exact H|].
  exact (si_parse_prefixed_errors ref_platform (lit "4.78 k") H).
Defined.

(** ** Sign, zero and the unused precision *)

Lemma opp_of_positive (v : float) :
  (0 <? v)%float = true -> ((- v) <? 0)%float = true.
Proof.
  rewrite !ltb_spec, opp_spec. change (Prim2SF 0) with (S754_zero false).
  destruct (Prim2SF v) as [s|s| |s m e]; try discriminate;
    destruct s; try discriminate; reflexivity.
Qed.

Lemma opp_opp (v : float) : (- - v)%float = v.
Proof.
  apply Prim2SF_inj. rewrite !opp_spec.
  destruct (Prim2SF v) as [s|s| |s m e]; simpl; try reflexivity;
    rewrite negb_involutive; reflexivity.
Qed.

(** X18. [split] decomposes a negative value as its absolute value and
    multiplies the mantissa by [-1]: for every positive [value],
    [split(-value)] is [split(value)] with the mantissa times [-1.0] and
    the same exponent, and raises what [split(value)] raises. *)
Theorem flat_split_of_negative (pf : platform) (value : float) (precision : Z) :
  (0 <? value)%float = true ->
  Flat.split pf (- value) precision
  = ('(m, e) <- Flat.split pf value precision ;; Ok ((m * (-1))%float, e)).
Proof.
  intros Hpos. destruct (positive_float value Hpos) as [Hlt [Heq Hnan]].
  unfold Flat.split. rewrite (opp_of_positive value Hpos), Hlt, opp_opp.
  cbv zeta iota. rewrite Heq. cbn [negb andb].
  destruct (math_log10 pf value) as [l| |]; cbn [bind]; try reflexivity.
  destruct (py_int l) as [k| |]; cbn [bind]; try reflexivity.
  destruct (ten_pow pf _) as [scale| |]; cbn [bind]; try reflexivity.
  destruct (float_mul value scale) as [x| |]; cbn [bind]; try reflexivity.
  change (float_mul ?y (PyInt (-1))) with (Ok (y * (-1))%float).
  destruct (1e3 <=? x)%float;
    [|destruct (100 <=? x)%float; [|destruct (10 <=? x)%float]];
    reflexivity.
Qed.

Lemma flat_split_of_negative_witness :
  (0 <? 0.04781)%float = true
  /\ Flat.split ref_platform (- 0.04781) 1
     = Ok ((47.809999999999995 * (-1))%float, -3).
Proof.
  split; [reflexivity|].
  exact (flat_split_of_negative ref_platform 0.04781 1 eq_refl).
Defined.

(** X19. The precision has no effect on [split]: the digit count it
    derives from the precision is never used, so two calls that differ
    only in the precision return the same pair. *)
Theorem flat_split_ignores_precision (pf : platform) (value : float)
        (p q : Z) :
  Flat.split pf value p = Flat.split pf value q.
Proof.
  unfold Flat.split. cbv zeta.
  destruct (negb _ && _); [reflexivity|].
  destruct (math_log10 pf _) as [l| |]; cbn [bind]; try reflexivity.
  destruct (py_int l) as [k| |]; cbn [bind]; try reflexivity.
  destruct (ten_pow pf _) as [scale| |]; cbn [bind]; try reflexivity.
  destruct (float_mul _ scale) as [x| |]; cbn [bind]; try reflexivity.
  destruct (1e3 <=? x)%float;
    [|destruct (100 <=? x)%float; [|destruct (10 <=? x)%float]];
    reflexivity.
Qed.

Lemma fixed_digits_of_zero (k : nat) (acc : str) :
  fixed_digits k 0 acc = repeat (chr "0") k ++ acc.
Proof.
  revert acc. induction k as [|k IH]; intros acc; [reflexivity|].
  cbn [fixed_digits]. change (0 / 10) with 0.
  change ((48 + Z.to_N (0 mod 10))%N) with (chr "0").
  rewrite IH. change (chr "0" :: acc) with ([chr "0"] ++ acc).
  rewrite app_assoc. f_equal.
  change (repeat (chr "0") (S k)) with (chr "0" :: repeat (chr "0") k).
  symmetry. apply (repeat_cons k (chr "0")).
Qed.

(** X20. A zero of either sign is formatted as a positive zero with
    [precision] zeros after the point and the trailing space of the
    empty prefix, for every valid precision and every platform:
    [with_format(-0.0, 2)] is ["0.00 "]. *)
Theorem with_format_of_zero (pf : platform) (value : float) (precision : Z)
        (exp_format_str : str) :
  (value =? 0)%float = true ->
  0 <= precision <= 2147483647 ->
  Pkg.with_format pf value precision Pkg.default_format_str exp_format_str
  = Ok (lit "0"
        ++ (if precision =? 0 then []
            else chr "." :: repeat (chr "0") (Z.to_nat precision))
        ++ lit " ").
Proof.
  intros Hz Hp. unfold Pkg.with_format, Pkg._split.
  rewrite (eqb_zero_not_ltb value Hz). cbv zeta iota. rewrite Hz.
  cbn [negb andb bind]. unfold format_f.
  destruct (Z.ltb_spec precision 0); [lia|].
  destruct (Z.ltb_spec 2147483647 precision); [lia|].
  cbn [orb bind]. change (Prim2SF 0) with (S754_zero false). cbv iota.
  change (Pkg._prefix 0) with (@Ok str []). cbn [bind].
  change (strip []) with (@nil N). unfold Pkg.default_format_str.
  rewrite default_template. unfold fixed_point.
  rewrite Z.div_0_l by (apply Z.pow_nonzero; lia).
  rewrite Z.mod_0_l by (apply Z.pow_nonzero; lia).
  rewrite fixed_digits_of_zero, app_nil_r.
  change (str_of_nonneg 0) with (lit "0"). cbn [app].
  rewrite <- !app_assoc. reflexivity.
Qed.

Lemma with_format_of_zero_witness :
  ((-0) =? 0)%float = true /\ 0 <= 2 <= 2147483647
  /\ Pkg.with_format ref_platform (-0) 2 Pkg.default_format_str
                     Pkg.default_exp_format_str = Ok (lit "0.00 ").
Proof.
  assert (Hp : 0 <= 2 <= 2147483647) by lia.
  split; [reflexivity|]. split; [exact Hp|].
  exact (with_format_of_zero ref_platform (-0) 2 Pkg.default_exp_format_str
           eq_refl Hp).
Defined.

(** X21. When a [ValueError] of the primary template reaches the handler
    of [si_format] at exponent 0, the result with the default exponential
    template is the value text followed by [e0]; [with_format] returns the
    bare value text there. *)
Theorem si_format_handler_at_exponent_0 (pf : platform) (value : float)
        (precision : Z) (format_str : str) (m : float) (value_str : str) :
  Flat.split pf value precision = Ok (m, 0) ->
  format_f m precision = Ok value_str ->
  str_format format_str [(lit "value", value_str); (lit "prefix", [])]
  = Raise ValueError ->
  Flat.si_format pf value precision format_str Flat.default_exp_format_str
  = Ok (value_str ++ lit "e0").
Proof.
  intros Hs Hf Ht.
  rewrite (si_format_template_error pf value precision format_str
             Flat.default_exp_format_str m 0 value_str (lit " ") Hs Hf
             eq_refl Ht).
  change (join (lit "") [if 0 <? 0 then lit "+" else lit ""; str_of_int 0])
    with (lit "0").
  apply flat_default_exp_template.
Qed.

Lemma si_format_handler_at_exponent_0_witness :
  Flat.split ref_platform 3.93766 2 = Ok (3.93766%float, 0)
  /\ format_f 3.93766 2 = Ok (lit "3.94")
  /\ Flat.si_format ref_platform 3.93766 2 (lit "{value:d} {prefix}")
                    Flat.default_exp_format_str = Ok (lit "3.94e0").
Proof.
  assert (Hs : Flat.split ref_platform 3.93766 2 = Ok (3.93766%float, 0))
    by (vm_compute; reflexivity).
  assert (Hf : format_f 3.93766 2 = Ok (lit "3.94")) by (vm_compute; reflexivity).
  split; [exact Hs|]. split; [exact Hf|].
  exact (si_format_handler_at_exponent_0 ref_platform 3.93766 2
           (lit "{value:d} {prefix}") 3.93766 (lit "3.94") Hs Hf eq_refl).
Defined.
